(** * rds_idle_shutdown: the idle-decision engine of [lambda.py]

    A shallow embedding of the Lambda handler that stops idle RDS
    instances and Aurora clusters and starts them again on demand.

    - Python [str] values are [string]s; the model covers ASCII text (the
      identifiers, statuses and tag values AWS hands out), so [str.lower]
      and [int] only know the ASCII letters, digits and blanks.
    - Python [int] is [Z]; CloudWatch datapoints are binary64 floats
      ([PrimFloat.float]), compared with the thresholds the way Python
      compares them.
    - The boto3 clients are a record of oracles ([World]).  An oracle sees
      the calls made so far, so a provider whose answers change during a
      sweep is covered.  Every call is logged; a call either returns or
      raises.
    - Code that talks to the provider runs in the monad [M]: given the
      calls made so far it yields the calls it makes and its outcome. *)

From Stdlib Require Import ZArith Ascii String List Bool Lia.
From Stdlib Require Import Floats.
From stdpp Require Import gmap strings list.

Open Scope string_scope.
Open Scope list_scope.
Open Scope Z_scope.

(** ** Python strings *)

Module PyStr.

Definition code (c : ascii) : Z := Z.of_N (N_of_ascii c).

(** [str.lower] on one ASCII character. *)
Definition lower_char (c : ascii) : ascii :=
  if (65 <=? code c) && (code c <=? 90)
  then ascii_of_N (N_of_ascii c + 32)
  else c.

Fixpoint lower (s : string) : string :=
  match s with
  | EmptyString => EmptyString
  | String c s' => String (lower_char c) (lower s')
  end.

(** Truth value of a string: [if s:] holds for the non-empty ones. *)
Definition truthy (s : string) : bool :=
  match s with
  | EmptyString => false
  | String _ _ => true
  end.

(** [s.startswith(p)], returning what follows the prefix. *)
Fixpoint strip_prefix (p s : string) : option string :=
  match p, s with
  | EmptyString, _ => Some s
  | String a p', String b s' =>
      if Ascii.eqb a b then strip_prefix p' s' else None
  | String _ _, EmptyString => None
  end.

Definition startswith (s p : string) : bool :=
  match strip_prefix p s with
  | Some _ => true
  | None => false
  end.

(** [s.endswith(suf)]. *)
Fixpoint endswith (s suf : string) : bool :=
  if String.eqb s suf then true
  else match s with
       | EmptyString => false
       | String _ s' => endswith s' suf
       end.

(** [s.split(sep, 1)] for a non-empty [sep]: [None] stands for the
    one-element list [[s]] (no separator found), [Some (a, b)] for
    [[a, b]], cut at the first occurrence. *)
Fixpoint split_once (sep s : string) : option (string * string) :=
  match strip_prefix sep s with
  | Some rest => Some (EmptyString, rest)
  | None =>
      match s with
      | EmptyString => None
      | String c s' =>
          match split_once sep s' with
          | Some (a, b) => Some (String c a, b)
          | None => None
          end
      end
  end.

(** The blanks [int] skips around an ASCII numeral:
    space, [\t], [\n], [\v], [\f], [\r]. *)
Definition is_space (c : ascii) : bool :=
  (code c =? 32) || ((9 <=? code c) && (code c <=? 13)).

Fixpoint lstrip (l : list ascii) : list ascii :=
  match l with
  | c :: l' => if is_space c then lstrip l' else l
  | [] => []
  end.

Definition strip (l : list ascii) : list ascii :=
  rev (lstrip (rev (lstrip l))).

Definition digit_of (c : ascii) : option Z :=
  if (48 <=? code c) && (code c <=? 57) then Some (code c - 48) else None.

(** Digits after the first one; a single underscore may separate two
    digits.  [sep] tells that the previous character was an
    underscore. *)
Fixpoint more_digits (acc : Z) (sep : bool) (l : list ascii) : option Z :=
  match l with
  | [] => if sep then None else Some acc
  | c :: l' =>
      if Ascii.eqb c "_"%char
      then (if sep then None else more_digits acc true l')
      else match digit_of c with
           | Some d => more_digits (10 * acc + d) false l'
           | None => None
           end
  end.

Definition digits (l : list ascii) : option Z :=
  match l with
  | [] => None
  | c :: l' =>
      match digit_of c with
      | Some d => more_digits d false l'
      | None => None
      end
  end.

(** [int(s)] in base ten: [None] is [ValueError].  The interpreter's cap
    on the number of digits (4300 unless configured) is left out; a tag
    value has at most 256 characters. *)
Definition py_int (s : string) : option Z :=
  match strip (list_ascii_of_string s) with
  | c :: l' =>
      if Ascii.eqb c "-"%char then Z.opp <$> digits l'
      else if Ascii.eqb c "+"%char then digits l'
      else digits (c :: l')
  | [] => None
  end.

End PyStr.

Export PyStr.

(** ** Python numbers *)

Module PyNum.

(** [x <= n] for a float [x] and an int [n]: Python compares the exact
    values, never rounding [n] to a float. *)
Definition float_le_int (x : float) (n : Z) : bool :=
  match Prim2SF x with
  | S754_nan => false
  | S754_infinity s => s
  | S754_zero _ => 0 <=? n
  | S754_finite s m e =>
      let v := if s then Z.neg m else Z.pos m in
      if 0 <=? e then v * 2 ^ e <=? n else v <=? n * 2 ^ (- e)
  end.


(** [max(values)] on a non-empty list: the first item is kept until a
    later one compares greater. *)
Definition py_max (first : float) (rest : list float) : float :=
  fold_left (fun best item => if PrimFloat.ltb best item then item else best)
            rest first.

End PyNum.

Export PyNum.

(** ** Data handed over by the provider *)

Record Tag := { Key : string; Value : string }.

Module DBI.
(** One entry of [DBInstances]; [DBClusterIdentifier] is a key that is
    only there for members of a cluster. *)
Record t := {
  DBInstanceIdentifier : string;
  DBInstanceArn : string;
  DBInstanceStatus : string;
  DBClusterIdentifier : option string
}.
End DBI.

Module Member.
(** One entry of [DBClusterMembers], both keys read with [.get]. *)
Record t := {
  IsClusterWriter : bool;
  DBInstanceIdentifier : option string
}.
End Member.

Module DBC.
(** One entry of [DBClusters]; [Status] and [DBClusterMembers] are read
    with [.get]. *)
Record t := {
  DBClusterIdentifier : string;
  DBClusterArn : string;
  Status : option string;
  DBClusterMembers : list Member.t
}.
End DBC.

(** One page of a paginated listing: the items and [resp.get("Marker")]. *)
Record Page (A : Type) := { Items : list A; Marker : option string }.
Arguments Items {A} _.
Arguments Marker {A} _.

Record MetricDataResult := { Id : string; Values : list float }.

(** ** Environment variables, read when the module is loaded *)

Record Config := {
  DEFAULT_LOOKBACK_MINUTES : Z;
  DEFAULT_IDLE_PARAM : string;
  REQUIRED_TAG_KEY : string;
  REQUIRED_TAG_VALUE : string;
  CPU_PCT_THRESHOLD : float;
  IOPS_THRESHOLD : Z;
  CONNECTIONS_THRESHOLD : Z
}.

(** The values used when no variable is set. *)
Definition default_config : Config := {|
  DEFAULT_LOOKBACK_MINUTES := 20;
  DEFAULT_IDLE_PARAM := "/rds/idle_shutdown_minutes";
  REQUIRED_TAG_KEY := "IdleShutdown";
  REQUIRED_TAG_VALUE := "enabled";
  CPU_PCT_THRESHOLD := 1%float;
  IOPS_THRESHOLD := 0;
  CONNECTIONS_THRESHOLD := 0
|}.

(** ** Exceptions, provider calls and the monad *)

(** [ClientError] carries the text
    [e.response.get('Error', {}).get('Message', str(e))]; every other
    subclass of [Exception] is known by its name. *)
Inductive exn :=
| ClientError (message : string)
| OtherError (name : string).

Definition is_ClientError (e : exn) : bool :=
  match e with
  | ClientError _ => true
  | OtherError _ => false
  end.

(** A call through one of the boto3 clients.  [GetMetricData] records the
    three values that vary between the queries [fetch_idle_signals_for_instance]
    builds: the instance, the lookback in minutes that sets [StartTime], and
    the period. *)
Inductive call :=
| SsmGetParameter (name : string)
| DescribeDBInstances (marker : option string)
| DescribeDBClusters (marker : option string)
| ListTagsForResource (arn : string)
| GetMetricData (db_instance_id : string) (lookback_mins period : Z)
| StopDBInstance (db_instance_id : string)
| StartDBInstance (db_instance_id : string)
| StopDBCluster (db_cluster_id : string)
| StartDBCluster (db_cluster_id : string).

Inductive reply (A : Type) :=
| Returns (a : A)
| Raises (e : exn).
Arguments Returns {A} _.
Arguments Raises {A} _.

(** The collaborators.  Each oracle receives the calls made before it.
    [cw_get_metric_data] stands for the clock arithmetic that sets
    [StartTime] and [EndTime] together with the query itself, and raises
    when either does; its answer is [resp["MetricDataResults"]].
    [ssm_get_parameter] answers with [resp["Parameter"]["Value"]] and
    [rds_list_tags_for_resource] with [resp["TagList"]]; an answer that
    lacks the key read from it counts as a raise.
    [py_sum] is the builtin [sum] on a non-empty list of floats, whose
    rounding depends on the interpreter (plain left-to-right addition
    before 3.12, compensated summation since). *)
Record World := {
  ssm_get_parameter : list call -> string -> reply string;
  rds_describe_db_instances : list call -> option string -> reply (Page DBI.t);
  rds_describe_db_clusters : list call -> option string -> reply (Page DBC.t);
  rds_list_tags_for_resource : list call -> string -> reply (list Tag);
  cw_get_metric_data : list call -> string -> Z -> Z -> reply (list MetricDataResult);
  rds_stop_db_instance : list call -> string -> reply unit;
  rds_start_db_instance : list call -> string -> reply unit;
  rds_stop_db_cluster : list call -> string -> reply unit;
  rds_start_db_cluster : list call -> string -> reply unit;
  py_sum : list float -> float
}.

(** How a computation ends: a value, an exception that nobody caught, or
    a [while True] still turning when the model's step budget is spent. *)
Inductive outcome (A : Type) :=
| Ok (a : A)
| Raise (e : exn)
| OutOfFuel.
Arguments Ok {A} _.
Arguments Raise {A} _.
Arguments OutOfFuel {A}.

(** Given the calls made so far: the calls made here, and the outcome. *)
Definition M (A : Type) : Type := list call -> list call * outcome A.

Definition ret {A} (a : A) : M A := fun _ => ([], Ok a).

Definition raise {A} (e : exn) : M A := fun _ => ([], Raise e).

Definition out_of_fuel {A} : M A := fun _ => ([], OutOfFuel).

Definition bind {A B} (m : M A) (k : A -> M B) : M B :=
  fun h =>
    match m h with
    | (cs, Ok a) => let '(cs', r) := k a (h ++ cs) in (cs ++ cs', r)
    | (cs, Raise e) => (cs, Raise e)
    | (cs, OutOfFuel) => (cs, OutOfFuel)
    end.

Notation "'let*' x ':=' m 'in' k" := (bind m (fun x => k))
  (at level 10, x name, m at level 100, k at level 200).

(** [try: m  except <handled> as e: handler e]. *)
Definition try_except {A} (m : M A) (handled : exn -> bool)
    (handler : exn -> M A) : M A :=
  fun h =>
    match m h with
    | (cs, Raise e) =>
        if handled e
        then let '(cs', r) := handler e (h ++ cs) in (cs ++ cs', r)
        else (cs, Raise e)
    | r => r
    end.

Definition any_Exception (_ : exn) : bool := true.

(** One call through a client. *)
Definition invoke {A} (c : call) (oracle : list call -> reply A) : M A :=
  fun h =>
    ([c], match oracle h with
          | Returns a => Ok a
          | Raises e => Raise e
          end).

Fixpoint foldM {A B} (f : B -> A -> M B) (acc : B) (l : list A) : M B :=
  match l with
  | [] => ret acc
  | x :: l' => let* acc' := f acc x in foldM f acc' l'
  end.

(** ** The program *)

Section Program.

Variable cfg : Config.
Variable w : World.

(** [int(s)] as a statement that may raise [ValueError]. *)
Definition int_ (s : string) : M Z :=
  match py_int s with
  | Some n => ret n
  | None => raise (OtherError "ValueError")
  end.

Definition get_default_idle_minutes : M Z :=
  try_except
    (let* value := invoke (SsmGetParameter (DEFAULT_IDLE_PARAM cfg))
                          (fun h => ssm_get_parameter w h (DEFAULT_IDLE_PARAM cfg)) in
     int_ value)
    any_Exception
    (fun _ => ret 30).

Definition list_tags_for_resource (arn : string) : M (list Tag) :=
  invoke (ListTagsForResource arn) (fun h => rds_list_tags_for_resource w h arn).

(** The test of lines 49 and 68:
    [any(t["Key"] == REQUIRED_TAG_KEY and
         t["Value"].lower() == REQUIRED_TAG_VALUE for t in tags)]. *)
Definition has_required_tag (tags : list Tag) : bool :=
  existsb (fun t => String.eqb (Key t) (REQUIRED_TAG_KEY cfg)
                    && String.eqb (lower (Value t)) (REQUIRED_TAG_VALUE cfg))
          tags.

(** Truth value of [resp.get("Marker")]: [None] and the empty string
    are false. *)
Definition marker_set (marker : option string) : bool :=
  match marker with
  | Some s => truthy s
  | None => false
  end.

(** [if marker: kwargs["Marker"] = marker]. *)
Definition marker_kwarg (marker : option string) : option string :=
  if marker_set marker then marker else None.

(** The body of [for dbi in resp["DBInstances"]] and of
    [for dbc in resp["DBClusters"]]: look the tags up, append on a
    match. *)
Definition keep_if_tagged {A} (arn_of : A -> string) (found : list A)
    (x : A) : M (list A) :=
  let* tags := list_tags_for_resource (arn_of x) in
  ret (if has_required_tag tags then found ++ [x] else found).

(** The [while True] loop shared by the two listings, with a budget of
    [fuel] pages.  [found] is the list built so far. *)
Fixpoint list_tagged {A} (describe : option string -> M (Page A))
    (arn_of : A -> string) (fuel : nat) (marker : option string)
    (found : list A) : M (list A) :=
  match fuel with
  | O => out_of_fuel
  | S fuel' =>
      let* resp := describe (marker_kwarg marker) in
      let* found' := foldM (keep_if_tagged arn_of) found (Items resp) in
      let marker' := Marker resp in
      if negb (marker_set marker') then ret found'
      else list_tagged describe arn_of fuel' marker' found'
  end.

Definition list_tagged_db_instances (fuel : nat) : M (list DBI.t) :=
  list_tagged
    (fun marker => invoke (DescribeDBInstances marker)
                          (fun h => rds_describe_db_instances w h marker))
    DBI.DBInstanceArn fuel None [].

Definition list_tagged_db_clusters (fuel : nat) : M (list DBC.t) :=
  list_tagged
    (fun marker => invoke (DescribeDBClusters marker)
                          (fun h => rds_describe_db_clusters w h marker))
    DBC.DBClusterArn fuel None [].

Fixpoint _get_tag_value (tags : list Tag) (key : string) : option string :=
  match tags with
  | [] => None
  | t :: tags' =>
      if String.eqb (Key t) key then Some (Value t)
      else _get_tag_value tags' key
  end.

(** The [try] block yields [Some n] where the source returns from inside
    it, and [None] where control falls through to the last line. *)
Definition get_effective_idle_minutes (resource_arn : string)
    (default_minutes : Z) : M Z :=
  let* early :=
    try_except
      (let* tags := list_tags_for_resource resource_arn in
       match _get_tag_value tags "IdleMinutes" with
       | Some override =>
           if truthy override
           then let* n := int_ override in ret (Some n)
           else ret None
       | None => ret None
       end)
      any_Exception
      (fun _ => ret None) in
  match early with
  | Some n => ret n
  | None => ret default_minutes
  end.

(** The four-entry dictionary [out] before the response is read. *)
Definition no_signals : gmap string float :=
  <["m_conn_max" := 0%float]>
    (<["m_read_sum" := 0%float]>
       (<["m_write_sum" := 0%float]>
          (<["m_cpu_max" := 0%float]> ∅))).

(** [r["Id"].split("_", 1)[1]], an [IndexError] without underscore. *)
Definition id_suffix (id : string) : M string :=
  match split_once "_" id with
  | Some (_, suffix) => ret suffix
  | None => raise (OtherError "IndexError")
  end.

(** The body of [for r in resp["MetricDataResults"]]. *)
Definition record_result (out : gmap string float) (r : MetricDataResult)
    : M (gmap string float) :=
  match Values r with
  | [] => ret out
  | v :: vs =>
      if endswith (Id r) "conn_max" || endswith (Id r) "cpu_max"
      then let* suffix := id_suffix (Id r) in
           ret (<["m_" +:+ suffix := py_max v vs]> out)
      else let* suffix := id_suffix (Id r) in
           ret (<["m_" +:+ suffix := py_sum w (v :: vs)]> out)
  end.

Definition fetch_idle_signals_for_instance (db_instance_id : string)
    (lookback_mins : Z) : M (gmap string float) :=
  let period := Z.max 60 ((lookback_mins * 60) / 10) in
  let* resp :=
    invoke (GetMetricData db_instance_id lookback_mins period)
           (fun h => cw_get_metric_data w h db_instance_id lookback_mins period) in
  foldM record_result no_signals resp.

(** [m.get(key, 0.0)]. *)
Definition signal (m : gmap string float) (key : string) : float :=
  default 0%float (m !! key).

(** The expression [is_instance_idle] returns, on the fetched signals. *)
Definition idle_verdict (m : gmap string float) : bool :=
  let total_iops := (signal m "m_read_sum" + signal m "m_write_sum")%float in
  float_le_int (signal m "m_conn_max") (CONNECTIONS_THRESHOLD cfg)
  && float_le_int total_iops (IOPS_THRESHOLD cfg)
  && PrimFloat.leb (signal m "m_cpu_max") (CPU_PCT_THRESHOLD cfg).

Definition is_instance_idle (db_instance_id : string) (lookback_mins : Z)
    : M bool :=
  let* m := fetch_idle_signals_for_instance db_instance_id lookback_mins in
  ret (idle_verdict m).

Definition client_message (e : exn) : string :=
  match e with
  | ClientError message => message
  | OtherError name => name
  end.

Definition stop_instance (db_instance_id : string) : M (bool * string) :=
  try_except
    (let* _ := invoke (StopDBInstance db_instance_id)
                      (fun h => rds_stop_db_instance w h db_instance_id) in
     ret (true, "Stop initiated for instance " +:+ db_instance_id))
    is_ClientError
    (fun e => ret (false, "Could not stop instance " +:+ db_instance_id
                          +:+ ": " +:+ client_message e)).

Definition start_instance (db_instance_id : string) : M (bool * string) :=
  try_except
    (let* _ := invoke (StartDBInstance db_instance_id)
                      (fun h => rds_start_db_instance w h db_instance_id) in
     ret (true, "Start initiated for instance " +:+ db_instance_id))
    is_ClientError
    (fun e => ret (false, "Could not start instance " +:+ db_instance_id
                          +:+ ": " +:+ client_message e)).

Definition stop_cluster (db_cluster_id : string) : M (bool * string) :=
  try_except
    (let* _ := invoke (StopDBCluster db_cluster_id)
                      (fun h => rds_stop_db_cluster w h db_cluster_id) in
     ret (true, "Stop initiated for cluster " +:+ db_cluster_id))
    is_ClientError
    (fun e => ret (false, "Could not stop cluster " +:+ db_cluster_id
                          +:+ ": " +:+ client_message e)).

Definition start_cluster (db_cluster_id : string) : M (bool * string) :=
  try_except
    (let* _ := invoke (StartDBCluster db_cluster_id)
                      (fun h => rds_start_db_cluster w h db_cluster_id) in
     ret (true, "Start initiated for cluster " +:+ db_cluster_id))
    is_ClientError
    (fun e => ret (false, "Could not start cluster " +:+ db_cluster_id
                          +:+ ": " +:+ client_message e)).

(** *** The sweep *)

(** The lines [handle_check] appends. *)
Definition skip_instance_status (dbid status : string) : string :=
  "Skip " +:+ dbid +:+ ": status=" +:+ status.

Definition skip_instance_member (dbid cluster : string) : string :=
  "Skip " +:+ dbid +:+ ": part of cluster " +:+ cluster.

Definition keep_instance (dbid : string) : string :=
  "Keep running " +:+ dbid +:+ ": not idle".

(** [f"{status}"] for the result of [dbc.get("Status")]. *)
Definition format_status (status : option string) : string :=
  match status with
  | Some s => s
  | None => "None"
  end.

Definition skip_cluster_status (cluster_id : string) (status : option string)
    : string :=
  "Skip cluster " +:+ cluster_id +:+ ": status=" +:+ format_status status.

Definition skip_cluster_no_writer (cluster_id : string) : string :=
  "Skip cluster " +:+ cluster_id +:+ ": no writer found".

Definition keep_cluster (cluster_id writer_inst : string) : string :=
  "Keep running cluster " +:+ cluster_id +:+ ": not idle (writer="
    +:+ writer_inst +:+ ")".

(** The body of [for dbi in list_tagged_db_instances()]. *)
Definition check_instance (default_idle lookback_mins : Z)
    (actions : list string) (dbi : DBI.t) : M (list string) :=
  let dbid := DBI.DBInstanceIdentifier dbi in
  let arn := DBI.DBInstanceArn dbi in
  let status := DBI.DBInstanceStatus dbi in
  if negb (String.eqb status "available")
  then ret (actions ++ [skip_instance_status dbid status])
  else
    match DBI.DBClusterIdentifier dbi with
    | Some cluster => ret (actions ++ [skip_instance_member dbid cluster])
    | None =>
        let* idle_window := get_effective_idle_minutes arn default_idle in
        let* idle := is_instance_idle dbid (Z.min idle_window lookback_mins) in
        if idle
        then let* r := stop_instance dbid in ret (actions ++ [snd r])
        else ret (actions ++ [keep_instance dbid])
    end.

(** [status not in ("available", "in-sync")] negated. *)
Definition cluster_status_accepted (status : option string) : bool :=
  match status with
  | Some s => String.eqb s "available" || String.eqb s "in-sync"
  | None => false
  end.

(** The search for the writer: the first member flagged as writer
    decides, whatever its identifier. *)
Fixpoint find_writer (members : list Member.t) : option string :=
  match members with
  | [] => None
  | m :: members' =>
      if Member.IsClusterWriter m then Member.DBInstanceIdentifier m
      else find_writer members'
  end.

(** The body of [for dbc in list_tagged_db_clusters()]. *)
Definition check_cluster (default_idle lookback_mins : Z)
    (actions : list string) (dbc : DBC.t) : M (list string) :=
  let cluster_id := DBC.DBClusterIdentifier dbc in
  let status := DBC.Status dbc in
  if negb (cluster_status_accepted status)
  then ret (actions ++ [skip_cluster_status cluster_id status])
  else
    let arn := DBC.DBClusterArn dbc in
    let* idle_window := get_effective_idle_minutes arn default_idle in
    match find_writer (DBC.DBClusterMembers dbc) with
    | Some (String c s as writer_inst) =>
        let* idle := is_instance_idle writer_inst (Z.min idle_window lookback_mins) in
        if idle
        then let* r := stop_cluster cluster_id in ret (actions ++ [snd r])
        else ret (actions ++ [keep_cluster cluster_id writer_inst])
    | _ => ret (actions ++ [skip_cluster_no_writer cluster_id])
    end.

(** [handle_check] from its second line on, [default_idle] being known.
    [LOOKBACK_MINUTES] is read again here, with the value found at load
    time as its default, which gives that same value.  The result is the
    list under the key ["actions"]; [fuel] bounds the pages each listing
    may ask for. *)
Definition handle_check_from (default_idle : Z) (fuel : nat)
    : M (list string) :=
  let lookback_mins := DEFAULT_LOOKBACK_MINUTES cfg in
  let actions := [] in
  let* instances := list_tagged_db_instances fuel in
  let* actions := foldM (check_instance default_idle lookback_mins) actions instances in
  let* clusters := list_tagged_db_clusters fuel in
  let* actions := foldM (check_cluster default_idle lookback_mins) actions clusters in
  ret actions.

Definition handle_check (fuel : nat) : M (list string) :=
  let* default_idle := get_default_idle_minutes in
  handle_check_from default_idle fuel.

(** *** The start request *)

(** The event of an HTTP API call: [queryStringParameters] may be
    missing or null. *)
Record Event := {
  queryStringParameters : option (gmap string string)
}.

(** The dictionary [_http] builds; [body] is what [json.dumps] receives,
    key by key. *)
Record Response := {
  statusCode : Z;
  headers : list (string * string);
  body : list (string * string)
}.

Definition _http (status : Z) (body : list (string * string)) : Response :=
  {| statusCode := status;
     headers := [("Content-Type", "application/json")];
     body := body |}.

(** [a or b] where [a] comes from [dict.get]. *)
Definition get_or (a : option string) (b : string) : string :=
  match a with
  | Some s => if truthy s then s else b
  | None => b
  end.

(** [params.get("resource") or params.get("db") or ""]. *)
Definition requested_resource (event : Event) : string :=
  let params := default ∅ (queryStringParameters event) in
  get_or (params !! "resource") (get_or (params !! "db") "").

Definition handle_start (event : Event) : M Response :=
  let resource := requested_resource event in
  if negb (truthy resource)
  then ret (_http 400 [("error", "missing resource parameter")])
  else
    if startswith resource "cluster:"
    then
      match split_once "cluster:" resource with
      | Some (_, cluster_id) =>
          let* r := start_cluster cluster_id in
          let code := if fst r then 200 else 400 in
          ret (_http code [("message", snd r); ("resource", cluster_id);
                           ("type", "cluster")])
      | None => raise (OtherError "IndexError")
      end
    else
      let inst_id := resource in
      let* r := start_instance inst_id in
      let code := if fst r then 200 else 400 in
      ret (_http code [("message", snd r); ("resource", inst_id);
                       ("type", "instance")]).

End Program.

(** ** A small fleet to run the program on *)

Module Demo.

Definition tag (k v : string) : Tag := {| Key := k; Value := v |}.

Definition db1 : DBI.t :=
  {| DBI.DBInstanceIdentifier := "db1"; DBI.DBInstanceArn := "arn:db1";
     DBI.DBInstanceStatus := "available"; DBI.DBClusterIdentifier := None |}.

Definition db2 : DBI.t :=
  {| DBI.DBInstanceIdentifier := "db2"; DBI.DBInstanceArn := "arn:db2";
     DBI.DBInstanceStatus := "available"; DBI.DBClusterIdentifier := None |}.

Definition db3 : DBI.t :=
  {| DBI.DBInstanceIdentifier := "db3"; DBI.DBInstanceArn := "arn:db3";
     DBI.DBInstanceStatus := "available"; DBI.DBClusterIdentifier := Some "c1" |}.

Definition db4 : DBI.t :=
  {| DBI.DBInstanceIdentifier := "db4"; DBI.DBInstanceArn := "arn:db4";
     DBI.DBInstanceStatus := "stopped"; DBI.DBClusterIdentifier := None |}.

Definition db5 : DBI.t :=
  {| DBI.DBInstanceIdentifier := "db5"; DBI.DBInstanceArn := "arn:db5";
     DBI.DBInstanceStatus := "available"; DBI.DBClusterIdentifier := None |}.

Definition c1 : DBC.t :=
  {| DBC.DBClusterIdentifier := "c1"; DBC.DBClusterArn := "arn:c1";
     DBC.Status := Some "available";
     DBC.DBClusterMembers :=
       [ {| Member.IsClusterWriter := false;
            Member.DBInstanceIdentifier := Some "db9" |};
         {| Member.IsClusterWriter := true;
            Member.DBInstanceIdentifier := Some "db3" |} ] |}.

Definition c2 : DBC.t :=
  {| DBC.DBClusterIdentifier := "c2"; DBC.DBClusterArn := "arn:c2";
     DBC.Status := Some "available";
     DBC.DBClusterMembers :=
       [ {| Member.IsClusterWriter := false;
            Member.DBInstanceIdentifier := Some "db8" |} ] |}.

Definition c3 : DBC.t :=
  {| DBC.DBClusterIdentifier := "c3"; DBC.DBClusterArn := "arn:c3";
     DBC.Status := Some "stopped";
     DBC.DBClusterMembers := [] |}.

(** Tags by ARN: everything is opted in except [db5], whose tag key is
    spelled in lower case; [db2] carries an override. *)
Definition tags_of (arn : string) : list Tag :=
  if String.eqb arn "arn:db1" then [tag "Name" "one"; tag "IdleShutdown" "enabled"]
  else if String.eqb arn "arn:db2" then [tag "IdleShutdown" "Enabled"; tag "IdleMinutes" "5"]
  else if String.eqb arn "arn:db5" then [tag "idleshutdown" "enabled"]
  else [tag "IdleShutdown" "ENABLED"].

Definition result (id : string) (values : list float) : MetricDataResult :=
  {| Id := id; Values := values |}.

(** [db2] has three connections; every other instance is quiet, with a
    CPU peak of half a percent. *)
Definition metrics_of (db_instance_id : string) : list MetricDataResult :=
  [ result "m_conn_max"
      (if String.eqb db_instance_id "db2" then [1; 3; 2] else [0; 0])%float;
    result "m_read_sum" [0; 0]%float;
    result "m_write_sum" [];
    result "m_cpu_max" [0.25; 0.5]%float ].

Definition sum_left_to_right (values : list float) : float :=
  fold_left PrimFloat.add values 0%float.

Definition pages_of_instances (marker : option string) : Page DBI.t :=
  match marker with
  | None => {| Items := [db1; db2; db3]; Marker := Some "page2" |}
  | Some _ => {| Items := [db4; db5]; Marker := None |}
  end.

(** A provider with the fleet above: instances on two pages, clusters on
    one page that ends with an empty marker.  The parameter, the tags,
    the metrics and the effect of a stop are left open. *)
Definition world_with (param : reply string)
    (tags : string -> reply (list Tag))
    (metrics : string -> reply (list MetricDataResult))
    (stop : string -> reply unit) : World := {|
  ssm_get_parameter := fun _ _ => param;
  rds_describe_db_instances := fun _ marker => Returns (pages_of_instances marker);
  rds_describe_db_clusters := fun _ _ =>
    Returns {| Items := [c1; c2; c3]; Marker := Some "" |};
  rds_list_tags_for_resource := fun _ arn => tags arn;
  cw_get_metric_data := fun _ id _ _ => metrics id;
  rds_stop_db_instance := fun _ id => stop id;
  rds_start_db_instance := fun _ _ => Returns tt;
  rds_stop_db_cluster := fun _ id => stop id;
  rds_start_db_cluster := fun _ _ => Returns tt;
  py_sum := sum_left_to_right
|}.

(** Every call succeeds. *)
Definition world : World :=
  world_with (Returns "30") (fun arn => Returns (tags_of arn))
             (fun id => Returns (metrics_of id)) (fun _ => Returns tt).

(** CloudWatch throttles the metric query of [db1]. *)
Definition world_metrics_fail : World :=
  world_with (Returns "30") (fun arn => Returns (tags_of arn))
             (fun id => if String.eqb id "db1"
                        then Raises (ClientError "Rate exceeded")
                        else Returns (metrics_of id))
             (fun _ => Returns tt).

(** The provider refuses to stop [db1]; the parameter is missing. *)
Definition world_stop_refused : World :=
  world_with (Raises (ClientError "ParameterNotFound"))
             (fun arn => Returns (tags_of arn))
             (fun id => Returns (metrics_of id))
             (fun id => if String.eqb id "db1"
                        then Raises (ClientError "Instance db1 is not in available state.")
                        else Returns tt).


End Demo.

(** ** The rest of the program *)

(** [s.replace(old, new)] where [old] and [new] are one character each. *)
Fixpoint replace_char (old new : ascii) (s : string) : string :=
  match s with
  | EmptyString => EmptyString
  | String c s' =>
      String (if Ascii.eqb c old then new else c) (replace_char old new s')
  end.

(** [f"{prefix}_{name}".replace("/", "_")]. *)
Definition _metric_id (prefix name : string) : string :=
  replace_char "/" "_" (prefix +:+ "_" +:+ name).

(** The four queries [fetch_idle_signals_for_instance] builds with
    [add_metric]: metric name, statistic and id, in the order they are
    added. *)
Definition idle_signal_queries : list (string * string * string) :=
  [ ("DatabaseConnections", "Maximum", _metric_id "m" "conn_max");
    ("ReadIOPS", "Sum", _metric_id "m" "read_sum");
    ("WriteIOPS", "Sum", _metric_id "m" "write_sum");
    ("CPUUtilization", "Maximum", _metric_id "m" "cpu_max") ].

(** The event [lambda_handler] receives.  [NotADict] is any event for
    which [isinstance(event, dict)] is false.  For a dictionary the model
    keeps [event.get("mode")], [event.get("source")], whether the key
    ["requestContext"] is there, and the part [handle_start] reads.  A
    mode that is not a string behaves as the empty string when it is
    falsy and as a word that is neither ["check"] nor ["start"] when it
    is truthy. *)
Inductive LambdaEvent :=
| NotADict
| Dict (mode source : option string) (requestContext : bool) (http : Event).

(** What [lambda_handler] returns: the dictionary of [handle_check],
    known by its ["actions"], or the response of [handle_start]. *)
Inductive HandlerResult :=
| CheckResult (actions : list string)
| StartResult (response : Response).

(** [not mode] for the result of [event.get("mode")]. *)
Definition mode_missing (mode : option string) : bool :=
  match mode with
  | Some s => negb (truthy s)
  | None => true
  end.

(** The value of [mode] when the dispatch of [lambda_handler] begins. *)
Definition resolved_mode (event : LambdaEvent) : option string :=
  match event with
  | NotADict => None
  | Dict mode source requestContext _ =>
      let mode :=
        if mode_missing mode
           && match source with
              | Some s => String.eqb s "aws.events"
              | None => false
              end
        then Some "check" else mode in
      let mode :=
        if mode_missing mode && requestContext then Some "start" else mode in
      mode
  end.

Section Router.

Variable cfg : Config.
Variable w : World.

(** [lambda_handler]; the line each check branch prints to the log is not
    part of the model.  The start branch is only reached with a
    dictionary. *)
Definition lambda_handler (fuel : nat) (event : LambdaEvent) : M HandlerResult :=
  let mode := resolved_mode event in
  if match mode with Some s => String.eqb s "check" | None => false end
  then let* result := handle_check cfg w fuel in ret (CheckResult result)
  else
    if match mode with Some s => String.eqb s "start" | None => false end
    then
      match event with
      | Dict _ _ _ http =>
          let* response := handle_start w http in ret (StartResult response)
      | NotADict => raise (OtherError "AttributeError")
      end
    else let* result := handle_check cfg w fuel in ret (CheckResult result).

End Router.

Module DemoMore.

(** CloudWatch has no datapoint for anybody. *)
Definition world_no_datapoints : World :=
  Demo.world_with (Returns "30") (fun arn => Returns (Demo.tags_of arn))
    (fun id => Returns [Demo.result "m_conn_max" []; Demo.result "m_cpu_max" []])
    (fun _ => Returns tt).

(** CloudWatch answers with an id that has no underscore. *)
Definition world_odd_metric_id : World :=
  Demo.world_with (Returns "30") (fun arn => Returns (Demo.tags_of arn))
    (fun id => Returns [Demo.result "m_conn_max" [0%float];
                        Demo.result "cpumax" [0.5%float]])
    (fun _ => Returns tt).

(** The tag store fails on [db2]. *)
Definition world_tags_fail : World :=
  Demo.world_with (Returns "30")
    (fun arn => if String.eqb arn "arn:db2"
                then Raises (ClientError "Rate exceeded")
                else Returns (Demo.tags_of arn))
    (fun id => Returns (Demo.metrics_of id)) (fun _ => Returns tt).

(** A cluster whose first member flagged as writer has no identifier,
    followed by a writer that has one. *)
Definition c4 : DBC.t :=
  {| DBC.DBClusterIdentifier := "c4"; DBC.DBClusterArn := "arn:c4";
     DBC.Status := Some "in-sync";
     DBC.DBClusterMembers :=
       [ {| Member.IsClusterWriter := false;
            Member.DBInstanceIdentifier := Some "db6" |};
         {| Member.IsClusterWriter := true;
            Member.DBInstanceIdentifier := None |};
         {| Member.IsClusterWriter := true;
            Member.DBInstanceIdentifier := Some "db7" |} ] |}.

(** The provider as in [Demo.world], except that the listing of
    instances, or of clusters, is refused. *)
Definition world_listing_refused (instances clusters : bool) : World := {|
  ssm_get_parameter := fun _ _ => Returns "30";
  rds_describe_db_instances := fun _ marker =>
    if instances then Raises (ClientError "AccessDenied")
    else Returns (Demo.pages_of_instances marker);
  rds_describe_db_clusters := fun _ _ =>
    if clusters then Raises (ClientError "AccessDenied")
    else Returns {| Items := [Demo.c1]; Marker := None |};
  rds_list_tags_for_resource := fun _ arn => Returns (Demo.tags_of arn);
  cw_get_metric_data := fun _ id _ _ => Returns (Demo.metrics_of id);
  rds_stop_db_instance := fun _ _ => Returns tt;
  rds_start_db_instance := fun _ _ => Returns tt;
  rds_stop_db_cluster := fun _ _ => Returns tt;
  rds_start_db_cluster := fun _ _ => Returns tt;
  py_sum := Demo.sum_left_to_right
|}.

End DemoMore.

(** ** Vocabulary of the statements *)

(** Every call [m] makes satisfies [P], whatever was called before. *)
Definition emits {A} (P : call -> Prop) (m : M A) : Prop :=
  forall h, Forall P (fst (m h)).

(** A metric fetch that looks back at most [cap] minutes; any other call
    passes. *)
Definition lookback_at_most (cap : Z) (c : call) : Prop :=
  match c with
  | GetMetricData _ lookback_mins _ => lookback_mins <= cap
  | _ => True
  end.

Definition is_metric_fetch (c : call) : bool :=
  match c with
  | GetMetricData _ _ _ => true
  | _ => false
  end.

Definition is_parameter_fetch (c : call) : bool :=
  match c with
  | SsmGetParameter _ => true
  | _ => false
  end.

(** A result whose values the loop of [fetch_idle_signals_for_instance]
    can file: it has no values, or its id has an underscore. *)
Definition result_id_ok (r : MetricDataResult) : bool :=
  match Values r with
  | [] => true
  | _ :: _ =>
      match split_once "_" (Id r) with
      | Some _ => true
      | None => false
      end
  end.

(** CloudWatch answers every metric query, with results that can be
    filed. *)
Definition metrics_answered (w : World) : Prop :=
  forall h id lookback_mins period,
    exists resp,
      cw_get_metric_data w h id lookback_mins period = Returns resp
      /\ forallb result_id_ok resp = true.

Definition raises_other {A} (r : reply A) : bool :=
  match r with
  | Raises (OtherError _) => true
  | _ => false
  end.

(** A stop either succeeds or is refused with a [ClientError]. *)
Definition stops_refused_with_ClientError_only (w : World) : Prop :=
  forall h id,
    raises_other (rds_stop_db_instance w h id) = false
    /\ raises_other (rds_stop_db_cluster w h id) = false.

(** The lines [handle_check] can record for an instance. *)
Definition instance_line (dbi : DBI.t) (line : string) : Prop :=
  let dbid := DBI.DBInstanceIdentifier dbi in
  line = skip_instance_status dbid (DBI.DBInstanceStatus dbi)
  \/ (exists cluster, DBI.DBClusterIdentifier dbi = Some cluster
                      /\ line = skip_instance_member dbid cluster)
  \/ line = keep_instance dbid
  \/ line = "Stop initiated for instance " +:+ dbid
  \/ (exists message,
        line = "Could not stop instance " +:+ dbid +:+ ": " +:+ message).

(** The lines [handle_check] can record for a cluster. *)
Definition cluster_line (dbc : DBC.t) (line : string) : Prop :=
  let cluster_id := DBC.DBClusterIdentifier dbc in
  line = skip_cluster_status cluster_id (DBC.Status dbc)
  \/ line = skip_cluster_no_writer cluster_id
  \/ (exists writer, line = keep_cluster cluster_id writer)
  \/ line = "Stop initiated for cluster " +:+ cluster_id
  \/ (exists message,
        line = "Could not stop cluster " +:+ cluster_id +:+ ": " +:+ message).

(** A stop of an instance or of a cluster. *)
Definition is_stop (c : call) : bool :=
  match c with
  | StopDBInstance _ | StopDBCluster _ => true
  | _ => false
  end.

(** A start of an instance or of a cluster. *)
Definition is_start (c : call) : bool :=
  match c with
  | StartDBInstance _ | StartDBCluster _ => true
  | _ => false
  end.

(** Every stop in [cs] comes right after a metric fetch; [after_fetch]
    tells whether the call before [cs] was one. *)
Fixpoint stops_follow_fetches (after_fetch : bool) (cs : list call) : bool :=
  match cs with
  | [] => true
  | c :: cs' =>
      (if is_stop c then after_fetch else true)
      && stops_follow_fetches (is_metric_fetch c) cs'
  end.

(** Every stop [m] issues comes right after a metric fetch [m] made. *)
Definition fetches_before_stops {A} (m : M A) : Prop :=
  forall h, stops_follow_fetches false (fst (m h)) = true.

(** The pages a listing operation hands out, in order: it answers the
    request for [marker] with the first page, whose own marker leads to
    the rest; only the last page has no marker, or an empty one. *)
Fixpoint serves {A} (describe : list call -> option string -> reply (Page A))
    (marker : option string) (pages : list (Page A)) : Prop :=
  match pages with
  | [] => False
  | page :: rest =>
      (forall h, describe h marker = Returns page)
      /\ match rest with
         | [] => marker_set (Marker page) = false
         | _ :: _ =>
             marker_set (Marker page) = true
             /\ serves describe (Marker page) rest
         end
  end.

(** The tag store answers every lookup, and always the same for the same
    resource. *)
Definition stable_tags (w : World) (tags_of : string -> list Tag) : Prop :=
  forall h arn, rds_list_tags_for_resource w h arn = Returns (tags_of arn).

(** ** Running computations *)

Section Laws.

Context {A B : Type}.

Lemma bind_ok (m : M A) (k : A -> M B) h cs a :
  m h = (cs, Ok a) ->
  bind m k h = (cs ++ fst (k a (h ++ cs)), snd (k a (h ++ cs))).
Proof. intros E. unfold bind. rewrite E. now destruct (k a (h ++ cs)). Qed.

Lemma bind_raise (m : M A) (k : A -> M B) h cs e :
  m h = (cs, Raise e) -> bind m k h = (cs, Raise e).
Proof. intros E. unfold bind. now rewrite E. Qed.

Lemma bind_out_of_fuel (m : M A) (k : A -> M B) h cs :
  m h = (cs, OutOfFuel) -> bind m k h = (cs, OutOfFuel).
Proof. intros E. unfold bind. now rewrite E. Qed.

Lemma bind_ret (a : A) (k : A -> M B) h : bind (ret a) k h = k a h.
Proof.
  unfold bind, ret. rewrite app_nil_r. now destruct (k a h).
Qed.

End Laws.

(** The loop over [l1 ++ l2] is the loop over [l1] followed by the loop
    over [l2]. *)
Lemma foldM_app {A B} (f : B -> A -> M B) (l1 l2 : list A) (acc : B) h :
  foldM f acc (l1 ++ l2) h
  = bind (foldM f acc l1) (fun acc' => foldM f acc' l2) h.
Proof.
  revert acc h. induction l1 as [|x l1 IH]; intros acc h; cbn [foldM app].
  - now rewrite bind_ret.
  - unfold bind. destruct (f acc x h) as [cs [a| |]]; [|reflexivity..].
    rewrite IH. unfold bind.
    destruct (foldM f a l1 (h ++ cs)) as [cs1 [a1| |]]; [|reflexivity..].
    rewrite <- app_assoc.
    destruct (foldM f a1 l2 (h ++ cs ++ cs1)) as [cs2 r2].
    now rewrite app_assoc.
Qed.

(** ** The idle window of a resource *)

Section IdleWindow.

Context (w : World).

Lemma py_int_empty : py_int "" = None.
Proof. reflexivity. Qed.

(** What [get_effective_idle_minutes] computes, case by case on the
    answer of the tag store. *)
Lemma get_effective_idle_minutes_run arn default_minutes h :
  get_effective_idle_minutes w arn default_minutes h
  = ([ListTagsForResource arn],
     Ok match rds_list_tags_for_resource w h arn with
        | Returns tags =>
            match _get_tag_value tags "IdleMinutes" with
            | Some override => default default_minutes (py_int override)
            | None => default_minutes
            end
        | Raises _ => default_minutes
        end).
Proof.
  unfold get_effective_idle_minutes, bind, try_except, list_tags_for_resource,
    invoke, int_, ret, raise, any_Exception.
  destruct (rds_list_tags_for_resource w h arn) as [tags|e]; [|reflexivity].
  destruct (_get_tag_value tags "IdleMinutes") as [override|]; [|reflexivity].
  destruct override as [|c s]; [reflexivity|].
  cbn [truthy]. now destruct (py_int (String c s)).
Qed.


End IdleWindow.


(** ** The idle verdict *)

Section Verdict.

Context (cfg : Config) (w : World).



Lemma is_instance_idle_run db_instance_id lookback_mins h :
  is_instance_idle cfg w db_instance_id lookback_mins h
  = match fetch_idle_signals_for_instance w db_instance_id lookback_mins h with
    | (cs, Ok m) => (cs, Ok (idle_verdict cfg m))
    | (cs, Raise e) => (cs, Raise e)
    | (cs, OutOfFuel) => (cs, OutOfFuel)
    end.
Proof.
  unfold is_instance_idle, bind.
  destruct (fetch_idle_signals_for_instance _ _ _ _) as [cs [m| |]];
    [|reflexivity..].
  cbn. now rewrite app_nil_r.
Qed.


End Verdict.

(** ** Which calls a computation makes *)

Section Emits.

Context {A B : Type} (P : call -> Prop).

Lemma emits_ret (a : A) : emits P (ret a).
Proof. intros h. cbn. constructor. Qed.

Lemma emits_raise (e : exn) : emits P (raise (A:=A) e).
Proof. intros h. cbn. constructor. Qed.

Lemma emits_out_of_fuel : emits P (out_of_fuel (A:=A)).
Proof. intros h. cbn. constructor. Qed.

Lemma emits_invoke (c : call) (oracle : list call -> reply A) :
  P c -> emits P (invoke c oracle).
Proof. intros Hc h. cbn. constructor; [exact Hc | constructor]. Qed.

Lemma emits_bind (m : M A) (k : A -> M B) :
  emits P m -> (forall a, emits P (k a)) -> emits P (bind m k).
Proof.
  intros Hm Hk h. unfold bind. specialize (Hm h).
  destruct (m h) as [cs [a| |]]; cbn in *; try assumption.
  specialize (Hk a (h ++ cs)). destruct (k a (h ++ cs)) as [cs' r].
  apply Forall_app; now split.
Qed.

Lemma emits_try_except (m : M A) handled (handler : exn -> M A) :
  emits P m -> (forall e, emits P (handler e)) ->
  emits P (try_except m handled handler).
Proof.
  intros Hm Hk h. unfold try_except. specialize (Hm h).
  destruct (m h) as [cs [a|e|]]; cbn in *; try assumption.
  destruct (handled e); cbn; try assumption.
  specialize (Hk e (h ++ cs)). destruct (handler e (h ++ cs)) as [cs' r].
  apply Forall_app; now split.
Qed.

Lemma emits_foldM (f : B -> A -> M B) (l : list A) (acc : B) :
  (forall acc x, emits P (f acc x)) -> emits P (foldM f acc l).
Proof.
  intros Hf. revert acc. induction l as [|x l IH]; intros acc; cbn [foldM].
  - intros h. cbn. constructor.
  - intros h. unfold bind. pose proof (Hf acc x h) as Hx.
    destruct (f acc x h) as [cs [acc'| |]]; cbn in *; try assumption.
    pose proof (IH acc' (h ++ cs)) as Hl.
    destruct (foldM f acc' l (h ++ cs)) as [cs' r].
    apply Forall_app; now split.
Qed.

End Emits.

(** A computation that makes no call at all. *)
Lemma emits_nothing {A} (m : M A) h :
  emits (fun _ => False) m -> fst (m h) = [].
Proof.
  intros Hm. specialize (Hm h). destruct (fst (m h)) as [|c cs]; [reflexivity|].
  now inversion Hm.
Qed.

(** Peels one layer of a computation off an [emits] goal. *)
Ltac emits_step :=
  lazymatch goal with
  | |- emits _ (bind _ _) => apply emits_bind; [|intros ?]
  | |- emits _ (try_except _ _ _) => apply emits_try_except; [|intros ?]
  | |- emits _ (foldM _ _ _) => apply emits_foldM; intros ? ?
  | |- emits _ (ret _) => apply emits_ret
  | |- emits _ (raise _) => apply emits_raise
  | |- emits _ out_of_fuel => apply emits_out_of_fuel
  | |- emits _ (invoke _ _) => apply emits_invoke
  | |- emits _ (match ?x with _ => _ end) => destruct x
  end.

(** ** Eligibility: the required tag *)

Section Eligibility.

Context (cfg : Config) (w : World).

(** C10: a tag list passes exactly when one of its tags has the
    configured key, compared as it is, and a value whose lower-case form
    is the configured value; for a configured value that is itself in
    lower case this is equality of the two values up to case.  With the
    default configuration the values ["Enabled"] and ["ENABLED"] pass
    and a key in another case does not.  Both listings keep a resource
    exactly when the tags looked up for it pass. *)
Theorem required_tag_key_exact_value_lowercased (tags : list Tag) :
  (has_required_tag cfg tags = true <->
     exists t, In t tags /\ Key t = REQUIRED_TAG_KEY cfg
               /\ lower (Value t) = REQUIRED_TAG_VALUE cfg)
  /\ (lower (REQUIRED_TAG_VALUE cfg) = REQUIRED_TAG_VALUE cfg ->
      (has_required_tag cfg tags = true <->
         exists t, In t tags /\ Key t = REQUIRED_TAG_KEY cfg
                   /\ lower (Value t) = lower (REQUIRED_TAG_VALUE cfg)))
  /\ (has_required_tag default_config [Demo.tag "IdleShutdown" "Enabled"] = true
      /\ has_required_tag default_config [Demo.tag "IdleShutdown" "ENABLED"] = true
      /\ has_required_tag default_config [Demo.tag "IdleShutdown" "enabled"] = true
      /\ has_required_tag default_config [Demo.tag "idleshutdown" "enabled"] = false
      /\ has_required_tag default_config [Demo.tag "IDLESHUTDOWN" "enabled"] = false
      /\ has_required_tag default_config [Demo.tag "IdleShutdown" "disabled"] = false)
  /\ (forall (dbi : DBI.t) found h tags',
        rds_list_tags_for_resource w h (DBI.DBInstanceArn dbi) = Returns tags' ->
        keep_if_tagged cfg w DBI.DBInstanceArn found dbi h
        = ([ListTagsForResource (DBI.DBInstanceArn dbi)],
           Ok (if has_required_tag cfg tags' then found ++ [dbi] else found)))
  /\ (forall (dbc : DBC.t) found h tags',
        rds_list_tags_for_resource w h (DBC.DBClusterArn dbc) = Returns tags' ->
        keep_if_tagged cfg w DBC.DBClusterArn found dbc h
        = ([ListTagsForResource (DBC.DBClusterArn dbc)],
           Ok (if has_required_tag cfg tags' then found ++ [dbc] else found))).
Proof.
  assert (Hiff : has_required_tag cfg tags = true <->
     exists t, In t tags /\ Key t = REQUIRED_TAG_KEY cfg
               /\ lower (Value t) = REQUIRED_TAG_VALUE cfg).
  { unfold has_required_tag. rewrite existsb_exists. split.
    - intros (t & Hin & E). apply andb_true_iff in E as [E1 E2].
      apply String.eqb_eq in E1, E2. eauto.
    - intros (t & Hin & E1 & E2). exists t. split; [assumption|].
      apply andb_true_iff. split; now apply String.eqb_eq. }
  split; [exact Hiff|]. split.
  { intros ->. exact Hiff. }
  split; [now repeat split|].
  split; intros x found h tags' E;
    unfold keep_if_tagged, bind, list_tags_for_resource, invoke, ret;
    now rewrite E.
Qed.

End Eligibility.

(** ** The calls of the sweep *)

Section SweepCalls.

Context (cfg : Config) (w : World) (P : call -> Prop).

Hypothesis P_describe_instances : forall marker, P (DescribeDBInstances marker).
Hypothesis P_describe_clusters : forall marker, P (DescribeDBClusters marker).
Hypothesis P_tags : forall arn, P (ListTagsForResource arn).
Hypothesis P_metrics : forall id lookback_mins period,
  lookback_mins <= DEFAULT_LOOKBACK_MINUTES cfg ->
  P (GetMetricData id lookback_mins period).
Hypothesis P_stop_instance : forall id, P (StopDBInstance id).
Hypothesis P_stop_cluster : forall id, P (StopDBCluster id).

Lemma emits_list_tagged {A} (describe : option string -> M (Page A))
    (arn_of : A -> string) :
  (forall marker, emits P (describe marker)) ->
  forall fuel marker found,
    emits P (list_tagged cfg w describe arn_of fuel marker found).
Proof.
  intros Hd. induction fuel as [|fuel IH]; intros marker found;
    cbn [list_tagged].
  - apply emits_out_of_fuel.
  - emits_step; [apply Hd|]. emits_step.
    + emits_step. unfold keep_if_tagged, list_tags_for_resource.
      emits_step; [now apply emits_invoke | apply emits_ret].
    + destruct (negb _); [apply emits_ret | apply IH].
Qed.

Lemma emits_get_effective_idle_minutes arn d :
  emits P (get_effective_idle_minutes w arn d).
Proof.
  intros h. rewrite get_effective_idle_minutes_run. cbn.
  constructor; [apply P_tags | constructor].
Qed.

Lemma emits_record_result Q out r : emits Q (record_result w out r).
Proof.
  unfold record_result, id_suffix.
  destruct (Values r); [apply emits_ret|].
  destruct (_ || _); destruct (split_once _ _) as [[? ?]|];
    repeat emits_step.
Qed.

Lemma emits_is_instance_idle id lookback_mins :
  lookback_mins <= DEFAULT_LOOKBACK_MINUTES cfg ->
  emits P (is_instance_idle cfg w id lookback_mins).
Proof.
  intros Hle. unfold is_instance_idle, fetch_idle_signals_for_instance.
  emits_step; [|apply emits_ret].
  emits_step; [now apply emits_invoke; apply P_metrics|].
  emits_step. apply emits_record_result.
Qed.

Lemma emits_check_instance d actions dbi :
  emits P (check_instance cfg w d (DEFAULT_LOOKBACK_MINUTES cfg) actions dbi).
Proof.
  unfold check_instance. destruct (negb _); [apply emits_ret|].
  destruct (DBI.DBClusterIdentifier dbi); [apply emits_ret|].
  emits_step; [apply emits_get_effective_idle_minutes|].
  apply emits_bind; [apply emits_is_instance_idle; lia|].
  intros [|]; [|apply emits_ret].
  unfold stop_instance. repeat emits_step. apply P_stop_instance.
Qed.

Lemma emits_check_cluster d actions dbc :
  emits P (check_cluster cfg w d (DEFAULT_LOOKBACK_MINUTES cfg) actions dbc).
Proof.
  unfold check_cluster. destruct (negb _); [apply emits_ret|].
  emits_step; [apply emits_get_effective_idle_minutes|].
  destruct (find_writer _) as [[|c s]|]; try apply emits_ret.
  apply emits_bind; [apply emits_is_instance_idle; lia|].
  intros [|]; [|apply emits_ret].
  unfold stop_cluster. repeat emits_step. apply P_stop_cluster.
Qed.

Lemma emits_handle_check_from d fuel :
  emits P (handle_check_from cfg w d fuel).
Proof.
  unfold handle_check_from, list_tagged_db_instances, list_tagged_db_clusters.
  emits_step.
  { apply emits_list_tagged. intros marker.
    apply emits_invoke, P_describe_instances. }
  emits_step; [emits_step; apply emits_check_instance|].
  emits_step.
  { apply emits_list_tagged. intros marker.
    apply emits_invoke, P_describe_clusters. }
  emits_step; [emits_step; apply emits_check_cluster|].
  apply emits_ret.
Qed.

End SweepCalls.

(** ** One resource at a time *)

Lemma bind_ext {A B} (m : M A) (k1 k2 : A -> M B) h :
  (forall a h', k1 a h' = k2 a h') -> bind m k1 h = bind m k2 h.
Proof.
  intros E. unfold bind. destruct (m h) as [cs [a| |]]; [|reflexivity..].
  now rewrite E.
Qed.

(** When the body of a loop only appends [line x] for the item [x], the
    loop goes from the items before [x] straight to those after it. *)
Lemma foldM_skip {A} (f : list string -> A -> M (list string))
    (line : string) (x : A) (l1 l2 : list A) actions h :
  (forall acts h', f acts x h' = ([], Ok (acts ++ [line]))) ->
  foldM f actions (l1 ++ x :: l2) h
  = bind (foldM f actions l1) (fun acts => foldM f (acts ++ [line]) l2) h.
Proof.
  intros E. rewrite foldM_app. apply bind_ext. intros acts h'.
  cbn [foldM]. unfold bind. rewrite E, app_nil_r. cbn.
  now destruct (foldM f (acts ++ [line]) l2 h').
Qed.

Lemma append_inj_l (s a b : string) : s +:+ a = s +:+ b -> a = b.
Proof.
  induction s as [|c s IH]; cbn; [trivial|]. intros E. injection E as E. auto.
Qed.

Lemma find_writer_none (members : list Member.t) :
  Forall (fun m => Member.IsClusterWriter m = false) members ->
  find_writer members = None.
Proof.
  induction 1 as [|m members Hm _ IH]; cbn; [reflexivity|]. now rewrite Hm.
Qed.

Section Steps.

Context (cfg : Config) (w : World).

Lemma fetch_idle_signals_calls id lookback_mins h :
  fst (fetch_idle_signals_for_instance w id lookback_mins h)
  = [GetMetricData id lookback_mins (Z.max 60 (lookback_mins * 60 / 10))].
Proof.
  unfold fetch_idle_signals_for_instance, bind, invoke.
  destruct (cw_get_metric_data w h id _ _) as [resp|e]; [|reflexivity].
  pose proof (emits_nothing (foldM (record_result w) no_signals resp)
                (h ++ [GetMetricData id lookback_mins
                         (Z.max 60 (lookback_mins * 60 / 10))])) as E.
  destruct (foldM _ _ _ _) as [cs r]. cbn in *. rewrite E; [reflexivity|].
  apply emits_foldM. intros out r'. apply emits_record_result.
Qed.

Lemma is_instance_idle_calls id lookback_mins h :
  fst (is_instance_idle cfg w id lookback_mins h)
  = [GetMetricData id lookback_mins (Z.max 60 (lookback_mins * 60 / 10))].
Proof.
  rewrite is_instance_idle_run.
  pose proof (fetch_idle_signals_calls id lookback_mins h) as E.
  now destruct (fetch_idle_signals_for_instance _ _ _ _) as [cs [m| |]].
Qed.

Lemma stop_instance_run id h :
  stop_instance w id h
  = ([StopDBInstance id],
     match rds_stop_db_instance w h id with
     | Returns _ => Ok (true, "Stop initiated for instance " +:+ id)
     | Raises (ClientError message) =>
         Ok (false, "Could not stop instance " +:+ id +:+ ": " +:+ message)
     | Raises (OtherError name) => Raise (OtherError name)
     end).
Proof.
  unfold stop_instance, try_except, bind, invoke, ret.
  now destruct (rds_stop_db_instance w h id) as [[]|[message|name]].
Qed.

Lemma stop_cluster_run id h :
  stop_cluster w id h
  = ([StopDBCluster id],
     match rds_stop_db_cluster w h id with
     | Returns _ => Ok (true, "Stop initiated for cluster " +:+ id)
     | Raises (ClientError message) =>
         Ok (false, "Could not stop cluster " +:+ id +:+ ": " +:+ message)
     | Raises (OtherError name) => Raise (OtherError name)
     end).
Proof.
  unfold stop_cluster, try_except, bind, invoke, ret.
  now destruct (rds_stop_db_cluster w h id) as [[]|[message|name]].
Qed.

(** The step of the instance loop on an instance that is evaluated: the
    tag lookup, the metric fetch over the shorter of the two windows,
    then either a stop or nothing. *)
Lemma check_instance_evaluated d cap actions dbi h :
  DBI.DBInstanceStatus dbi = "available" ->
  DBI.DBClusterIdentifier dbi = None ->
  exists window tail,
    get_effective_idle_minutes w (DBI.DBInstanceArn dbi) d h
    = ([ListTagsForResource (DBI.DBInstanceArn dbi)], Ok window)
    /\ fst (check_instance cfg w d cap actions dbi h)
       = ListTagsForResource (DBI.DBInstanceArn dbi)
         :: GetMetricData (DBI.DBInstanceIdentifier dbi) (Z.min window cap)
              (Z.max 60 (Z.min window cap * 60 / 10))
         :: tail
    /\ (tail = [] \/ tail = [StopDBInstance (DBI.DBInstanceIdentifier dbi)]).
Proof.
  intros Hs Hc.
  pose proof (get_effective_idle_minutes_run w (DBI.DBInstanceArn dbi) d h)
    as Hrun.
  set (window := match rds_list_tags_for_resource w h _ with
                 | Returns _ => _ | Raises _ => _ end) in Hrun.
  exists window.
  unfold check_instance. rewrite Hs, Hc.
  change (negb (String.eqb "available" "available")) with false. cbv iota.
  unfold bind at 1. rewrite Hrun. unfold bind.
  pose proof (is_instance_idle_calls (DBI.DBInstanceIdentifier dbi)
                (Z.min window cap)
                (h ++ [ListTagsForResource (DBI.DBInstanceArn dbi)])) as E.
  destruct (is_instance_idle _ _ _ _ _) as [cs [[|]| |]]; cbn in E; subst cs;
    [rewrite stop_instance_run;
     destruct (rds_stop_db_instance w _ _) as [[]|[message|name]]|..];
    cbn; eexists; (split; [reflexivity|]); (split; [reflexivity|]); auto.
Qed.

Lemma check_cluster_evaluated d cap actions dbc writer h :
  cluster_status_accepted (DBC.Status dbc) = true ->
  find_writer (DBC.DBClusterMembers dbc) = Some writer ->
  writer <> "" ->
  exists window tail,
    get_effective_idle_minutes w (DBC.DBClusterArn dbc) d h
    = ([ListTagsForResource (DBC.DBClusterArn dbc)], Ok window)
    /\ fst (check_cluster cfg w d cap actions dbc h)
       = ListTagsForResource (DBC.DBClusterArn dbc)
         :: GetMetricData writer (Z.min window cap)
              (Z.max 60 (Z.min window cap * 60 / 10))
         :: tail
    /\ (tail = [] \/ tail = [StopDBCluster (DBC.DBClusterIdentifier dbc)]).
Proof.
  intros Hs Hw Hne.
  pose proof (get_effective_idle_minutes_run w (DBC.DBClusterArn dbc) d h)
    as Hrun.
  set (window := match rds_list_tags_for_resource w h _ with
                 | Returns _ => _ | Raises _ => _ end) in Hrun.
  exists window.
  unfold check_cluster. rewrite Hs, Hw. cbn [negb].
  destruct writer as [|c s]; [congruence|].
  unfold bind at 1. rewrite Hrun. unfold bind.
  pose proof (is_instance_idle_calls (String c s) (Z.min window cap)
                (h ++ [ListTagsForResource (DBC.DBClusterArn dbc)])) as E.
  destruct (is_instance_idle _ _ _ _ _) as [cs [[|]| |]]; cbn in E; subst cs;
    [rewrite stop_cluster_run;
     destruct (rds_stop_db_cluster w _ _) as [[]|[message|name]]|..];
    cbn; eexists; (split; [reflexivity|]); (split; [reflexivity|]); auto.
Qed.

End Steps.

(** ** The sweep, resource by resource *)

Section Sweep.

Context (cfg : Config) (w : World).

(** C4: for an instance that is evaluated, and for a cluster that is
    evaluated through its writer, the metric fetch looks back
    [min(window, cap)] minutes, [window] being what
    [get_effective_idle_minutes] returned for the resource and [cap] the
    configured lookback; so an override below the cap shortens the
    window, and no metric fetch of a sweep looks back further than the
    cap. *)
Theorem metric_lookback_is_min_of_window_and_cap (default_idle : Z) :
  (forall dbi actions h,
      DBI.DBInstanceStatus dbi = "available" ->
      DBI.DBClusterIdentifier dbi = None ->
      exists window tail,
        get_effective_idle_minutes w (DBI.DBInstanceArn dbi) default_idle h
        = ([ListTagsForResource (DBI.DBInstanceArn dbi)], Ok window)
        /\ fst (check_instance cfg w default_idle
                  (DEFAULT_LOOKBACK_MINUTES cfg) actions dbi h)
           = ListTagsForResource (DBI.DBInstanceArn dbi)
             :: GetMetricData (DBI.DBInstanceIdentifier dbi)
                  (Z.min window (DEFAULT_LOOKBACK_MINUTES cfg))
                  (Z.max 60 (Z.min window (DEFAULT_LOOKBACK_MINUTES cfg) * 60 / 10))
             :: tail
        /\ Forall (fun c => is_metric_fetch c = false) tail)
  /\ (forall dbc actions h writer,
        cluster_status_accepted (DBC.Status dbc) = true ->
        find_writer (DBC.DBClusterMembers dbc) = Some writer ->
        writer <> "" ->
        exists window tail,
          get_effective_idle_minutes w (DBC.DBClusterArn dbc) default_idle h
          = ([ListTagsForResource (DBC.DBClusterArn dbc)], Ok window)
          /\ fst (check_cluster cfg w default_idle
                    (DEFAULT_LOOKBACK_MINUTES cfg) actions dbc h)
             = ListTagsForResource (DBC.DBClusterArn dbc)
               :: GetMetricData writer
                    (Z.min window (DEFAULT_LOOKBACK_MINUTES cfg))
                    (Z.max 60 (Z.min window (DEFAULT_LOOKBACK_MINUTES cfg) * 60 / 10))
               :: tail
          /\ Forall (fun c => is_metric_fetch c = false) tail)
  /\ (forall window,
        Z.min window (DEFAULT_LOOKBACK_MINUTES cfg) <= DEFAULT_LOOKBACK_MINUTES cfg
        /\ (window <= DEFAULT_LOOKBACK_MINUTES cfg ->
            Z.min window (DEFAULT_LOOKBACK_MINUTES cfg) = window))
  /\ (forall fuel,
        emits (lookback_at_most (DEFAULT_LOOKBACK_MINUTES cfg))
              (handle_check cfg w fuel)).
Proof.
  split; [|split; [|split]].
  - intros dbi actions h Hs Hc.
    destruct (check_instance_evaluated cfg w default_idle
                (DEFAULT_LOOKBACK_MINUTES cfg) actions dbi h Hs Hc)
      as (window & tail & Hw & Hcalls & [-> | ->]);
      exists window; eexists; repeat split; eauto.
  - intros dbc actions h writer Hs Hw Hne.
    destruct (check_cluster_evaluated cfg w default_idle
                (DEFAULT_LOOKBACK_MINUTES cfg) actions dbc writer h Hs Hw Hne)
      as (window & tail & Hrun & Hcalls & [-> | ->]);
      exists window; eexists; repeat split; eauto.
  - intros window. lia.
  - intros fuel. unfold handle_check. apply emits_bind.
    + unfold get_default_idle_minutes, int_.
      repeat emits_step; exact I.
    + intros d. apply emits_handle_check_from; cbn; auto.
Qed.

(** C5: an instance whose status is not ["available"] and a cluster
    whose status is neither ["available"] nor ["in-sync"] (or is
    missing) get one Skip line each, and their turn in the loop makes
    no call at all: no tag lookup, no metric fetch, no stop.  The loop
    goes on with the resources that follow. *)
Theorem unavailable_resources_are_skipped_without_calls
    (default_idle lookback_mins : Z) (dbi : DBI.t) (dbc : DBC.t)
    (Hdbi : DBI.DBInstanceStatus dbi <> "available")
    (Hdbc : cluster_status_accepted (DBC.Status dbc) = false) :
  (forall actions h,
      check_instance cfg w default_idle lookback_mins actions dbi h
      = ([], Ok (actions ++ [skip_instance_status (DBI.DBInstanceIdentifier dbi)
                               (DBI.DBInstanceStatus dbi)])))
  /\ (forall actions h,
        check_cluster cfg w default_idle lookback_mins actions dbc h
        = ([], Ok (actions ++ [skip_cluster_status (DBC.DBClusterIdentifier dbc)
                                 (DBC.Status dbc)])))
  /\ (forall before after actions h,
        foldM (check_instance cfg w default_idle lookback_mins) actions
              (before ++ dbi :: after) h
        = bind (foldM (check_instance cfg w default_idle lookback_mins)
                      actions before)
               (fun acts =>
                  foldM (check_instance cfg w default_idle lookback_mins)
                        (acts ++ [skip_instance_status
                                    (DBI.DBInstanceIdentifier dbi)
                                    (DBI.DBInstanceStatus dbi)])
                        after) h)
  /\ (forall before after actions h,
        foldM (check_cluster cfg w default_idle lookback_mins) actions
              (before ++ dbc :: after) h
        = bind (foldM (check_cluster cfg w default_idle lookback_mins)
                      actions before)
               (fun acts =>
                  foldM (check_cluster cfg w default_idle lookback_mins)
                        (acts ++ [skip_cluster_status
                                    (DBC.DBClusterIdentifier dbc)
                                    (DBC.Status dbc)])
                        after) h).
Proof.
  assert (Hi : forall actions h,
      check_instance cfg w default_idle lookback_mins actions dbi h
      = ([], Ok (actions ++ [skip_instance_status (DBI.DBInstanceIdentifier dbi)
                               (DBI.DBInstanceStatus dbi)]))).
  { intros actions h. unfold check_instance.
    apply String.eqb_neq in Hdbi. now rewrite Hdbi. }
  assert (Hc : forall actions h,
      check_cluster cfg w default_idle lookback_mins actions dbc h
      = ([], Ok (actions ++ [skip_cluster_status (DBC.DBClusterIdentifier dbc)
                               (DBC.Status dbc)]))).
  { intros actions h. unfold check_cluster. now rewrite Hdbc. }
  repeat split; try assumption.
  - intros. now apply foldM_skip.
  - intros. now apply foldM_skip.
Qed.

(** C6: an instance that carries a [DBClusterIdentifier] gets one Skip
    line in the instance loop and its turn makes no call at all: no tag
    lookup, no metric fetch, no stop, whatever its metrics would say.
    The line names the cluster when the instance is available, and the
    status otherwise. *)
Theorem cluster_members_are_skipped_by_the_instance_loop
    (default_idle lookback_mins : Z) (dbi : DBI.t) (cluster : string)
    (Hmember : DBI.DBClusterIdentifier dbi = Some cluster) :
  exists line,
    (forall actions h,
        check_instance cfg w default_idle lookback_mins actions dbi h
        = ([], Ok (actions ++ [line])))
    /\ startswith line "Skip " = true
    /\ (DBI.DBInstanceStatus dbi = "available" ->
        line = skip_instance_member (DBI.DBInstanceIdentifier dbi) cluster)
    /\ (DBI.DBInstanceStatus dbi <> "available" ->
        line = skip_instance_status (DBI.DBInstanceIdentifier dbi)
                 (DBI.DBInstanceStatus dbi))
    /\ (forall before after actions h,
          foldM (check_instance cfg w default_idle lookback_mins) actions
                (before ++ dbi :: after) h
          = bind (foldM (check_instance cfg w default_idle lookback_mins)
                        actions before)
                 (fun acts =>
                    foldM (check_instance cfg w default_idle lookback_mins)
                          (acts ++ [line]) after) h).
Proof.
  destruct (String.eqb (DBI.DBInstanceStatus dbi) "available") eqn:Hs.
  - exists (skip_instance_member (DBI.DBInstanceIdentifier dbi) cluster).
    assert (Hi : forall actions h,
      check_instance cfg w default_idle lookback_mins actions dbi h
      = ([], Ok (actions ++ [skip_instance_member
                               (DBI.DBInstanceIdentifier dbi) cluster]))).
    { intros actions h. unfold check_instance. now rewrite Hs, Hmember. }
    apply String.eqb_eq in Hs.
    repeat split; try easy. intros. now apply foldM_skip.
  - exists (skip_instance_status (DBI.DBInstanceIdentifier dbi)
              (DBI.DBInstanceStatus dbi)).
    assert (Hi : forall actions h,
      check_instance cfg w default_idle lookback_mins actions dbi h
      = ([], Ok (actions ++ [skip_instance_status
                               (DBI.DBInstanceIdentifier dbi)
                               (DBI.DBInstanceStatus dbi)]))).
    { intros actions h. unfold check_instance. now rewrite Hs. }
    apply String.eqb_neq in Hs.
    repeat split; try easy. intros. now apply foldM_skip.
Qed.

End Sweep.

Section Writer.

Context (cfg : Config) (w : World).

(** C7: a cluster in an accepted status none of whose members is flagged
    as writer gets the line ["Skip cluster <id>: no writer found"]; its
    turn makes the tag lookup and nothing else, so no metric fetch and
    no stop.  The line differs from every other line the sweep can
    record for that cluster, and its reason differs from the other skip
    reasons. *)
Theorem cluster_without_writer_is_skipped
    (default_idle lookback_mins : Z) (dbc : DBC.t)
    (Hstatus : cluster_status_accepted (DBC.Status dbc) = true)
    (Hnowriter : Forall (fun m => Member.IsClusterWriter m = false)
                        (DBC.DBClusterMembers dbc)) :
  (forall actions h,
      check_cluster cfg w default_idle lookback_mins actions dbc h
      = ([ListTagsForResource (DBC.DBClusterArn dbc)],
         Ok (actions ++ [skip_cluster_no_writer (DBC.DBClusterIdentifier dbc)])))
  /\ (forall status,
        skip_cluster_no_writer (DBC.DBClusterIdentifier dbc)
        <> skip_cluster_status (DBC.DBClusterIdentifier dbc) status)
  /\ (forall writer,
        skip_cluster_no_writer (DBC.DBClusterIdentifier dbc)
        <> keep_cluster (DBC.DBClusterIdentifier dbc) writer)
  /\ (forall h ok message,
        snd (stop_cluster w (DBC.DBClusterIdentifier dbc) h) = Ok (ok, message) ->
        skip_cluster_no_writer (DBC.DBClusterIdentifier dbc) <> message)
  /\ (forall status cluster,
        "no writer found" <> "status=" +:+ status
        /\ "no writer found" <> "part of cluster " +:+ cluster
        /\ "no writer found" <> "not idle").
Proof.
  split; [|split; [|split; [|split]]].
  - intros actions h. unfold check_cluster. rewrite Hstatus. cbn [negb].
    rewrite (find_writer_none _ Hnowriter).
    unfold bind. rewrite get_effective_idle_minutes_run. reflexivity.
  - intros status E. unfold skip_cluster_no_writer, skip_cluster_status in E.
    do 2 apply append_inj_l in E. discriminate E.
  - intros writer E. discriminate E.
  - intros h ok message E. rewrite stop_cluster_run in E. cbn in E.
    destruct (rds_stop_db_cluster w h _) as [[]|[msg|name]];
      try discriminate E; injection E as _ <-; discriminate.
  - intros status cluster. repeat split; discriminate.
Qed.

Lemma get_default_idle_minutes_run h :
  get_default_idle_minutes cfg w h
  = ([SsmGetParameter (DEFAULT_IDLE_PARAM cfg)],
     Ok match ssm_get_parameter w h (DEFAULT_IDLE_PARAM cfg) with
        | Returns value => default 30 (py_int value)
        | Raises _ => 30
        end).
Proof.
  unfold get_default_idle_minutes, try_except, bind, invoke, int_, ret,
    raise, any_Exception.
  destruct (ssm_get_parameter w h _) as [value|e]; [|reflexivity].
  now destruct (py_int value).
Qed.

(** C8: [handle_check] starts with the one parameter fetch of the
    sweep; nothing it does afterwards fetches the parameter again.
    The fetch never fails: when the parameter store raises, or returns
    a value that is not an integer, the default is 30, and the sweep
    goes on exactly as it does for a default that was read. *)
Theorem default_idle_resolved_once_with_fallback_30
    (fuel : nat) (h : list call) :
  exists default_idle,
    get_default_idle_minutes cfg w h
    = ([SsmGetParameter (DEFAULT_IDLE_PARAM cfg)], Ok default_idle)
    /\ (forall e,
          ssm_get_parameter w h (DEFAULT_IDLE_PARAM cfg) = Raises e ->
          default_idle = 30)
    /\ (forall value,
          ssm_get_parameter w h (DEFAULT_IDLE_PARAM cfg) = Returns value ->
          py_int value = None -> default_idle = 30)
    /\ (forall value n,
          ssm_get_parameter w h (DEFAULT_IDLE_PARAM cfg) = Returns value ->
          py_int value = Some n -> default_idle = n)
    /\ handle_check cfg w fuel h
       = (SsmGetParameter (DEFAULT_IDLE_PARAM cfg)
            :: fst (handle_check_from cfg w default_idle fuel
                      (h ++ [SsmGetParameter (DEFAULT_IDLE_PARAM cfg)])),
          snd (handle_check_from cfg w default_idle fuel
                 (h ++ [SsmGetParameter (DEFAULT_IDLE_PARAM cfg)])))
    /\ Forall (fun c => is_parameter_fetch c = false)
              (fst (handle_check_from cfg w default_idle fuel
                      (h ++ [SsmGetParameter (DEFAULT_IDLE_PARAM cfg)]))).
Proof.
  pose proof (get_default_idle_minutes_run h) as Hrun.
  eexists. split; [exact Hrun|].
  split; [now intros e ->|].
  split; [now intros value -> ->|].
  split; [now intros value n -> ->|].
  split.
  - unfold handle_check. rewrite (bind_ok _ _ _ _ _ Hrun). reflexivity.
  - apply emits_handle_check_from; reflexivity.
Qed.

End Writer.

(** ** The start request *)

Lemma strip_prefix_app (p s : string) : strip_prefix p (p +:+ s) = Some s.
Proof.
  induction p as [|c p IH]; [now destruct s|].
  change (String c p +:+ s) with (String c (p +:+ s)). cbn [strip_prefix].
  now rewrite Ascii.eqb_refl.
Qed.

Lemma strip_prefix_Some (p s rest : string) :
  strip_prefix p s = Some rest -> s = p +:+ rest.
Proof.
  revert s. induction p as [|c p IH]; intros s; cbn [strip_prefix].
  - destruct s; intros E; now injection E as <-.
  - destruct s as [|c' s]; [discriminate|].
    destruct (Ascii.eqb c c') eqn:Ec; [|discriminate].
    apply Ascii.eqb_eq in Ec as <-. intros E. rewrite (IH _ E). reflexivity.
Qed.

Lemma split_once_prefix (p s : string) :
  split_once p (p +:+ s) = Some (EmptyString, s).
Proof.
  pose proof (strip_prefix_app p s) as E.
  destruct (p +:+ s); cbn [split_once]; now rewrite E.
Qed.

Section Start.

Context (w : World).

Lemma start_cluster_run id h :
  start_cluster w id h
  = ([StartDBCluster id],
     match rds_start_db_cluster w h id with
     | Returns _ => Ok (true, "Start initiated for cluster " +:+ id)
     | Raises (ClientError message) =>
         Ok (false, "Could not start cluster " +:+ id +:+ ": " +:+ message)
     | Raises (OtherError name) => Raise (OtherError name)
     end).
Proof.
  unfold start_cluster, try_except, bind, invoke, ret.
  now destruct (rds_start_db_cluster w h id) as [[]|[message|name]].
Qed.

Lemma start_instance_run id h :
  start_instance w id h
  = ([StartDBInstance id],
     match rds_start_db_instance w h id with
     | Returns _ => Ok (true, "Start initiated for instance " +:+ id)
     | Raises (ClientError message) =>
         Ok (false, "Could not start instance " +:+ id +:+ ": " +:+ message)
     | Raises (OtherError name) => Raise (OtherError name)
     end).
Proof.
  unfold start_instance, try_except, bind, invoke, ret.
  now destruct (rds_start_db_instance w h id) as [[]|[message|name]].
Qed.


End Start.

(** ** The whole sweep *)

(** A loop whose body always appends one line related to its item
    appends one such line per item, in order. *)
Lemma foldM_one_line_each {A} (f : list string -> A -> M (list string))
    (R : A -> string -> Prop) :
  (forall acts x h, exists cs line,
      f acts x h = (cs, Ok (acts ++ [line])) /\ R x line) ->
  forall l acts h, exists cs lines,
    foldM f acts l h = (cs, Ok (acts ++ lines)) /\ Forall2 R l lines.
Proof.
  intros Hf. induction l as [|x l IH]; intros acts h; cbn [foldM].
  - exists [], []. rewrite app_nil_r. split; [reflexivity | constructor].
  - destruct (Hf acts x h) as (cs & line & E & HR).
    destruct (IH (acts ++ [line]) (h ++ cs)) as (cs' & lines & E' & HR').
    exists (cs ++ cs'), (line :: lines).
    rewrite (bind_ok _ _ _ _ _ E), E'. cbn [fst snd].
    rewrite <- app_assoc. split; [reflexivity | now constructor].
Qed.

Section WholeSweep.

Context (cfg : Config) (w : World).

Hypothesis Hmetrics : metrics_answered w.
Hypothesis Hstops : stops_refused_with_ClientError_only w.

Lemma record_results_ok resp out h :
  forallb result_id_ok resp = true ->
  exists out', foldM (record_result w) out resp h = ([], Ok out').
Proof.
  revert out h. induction resp as [|r resp IH]; intros out h; cbn [foldM forallb].
  - eauto.
  - intros E. apply andb_true_iff in E as [Er E].
    assert (exists out1, record_result w out r h = ([], Ok out1)) as (out1 & E1).
    { unfold record_result, result_id_ok, id_suffix in *.
      destruct (Values r); [eauto|].
      destruct (split_once "_" (Id r)) as [[? ?]|]; [|discriminate].
      destruct (_ || _); unfold bind, ret; cbn; eauto. }
    rewrite (bind_ok _ _ _ _ _ E1).
    destruct (IH out1 (h ++ []) E) as (out' & ->). eauto.
Qed.

Lemma is_instance_idle_ok id lookback_mins h :
  exists idle,
    is_instance_idle cfg w id lookback_mins h
    = ([GetMetricData id lookback_mins (Z.max 60 (lookback_mins * 60 / 10))],
       Ok idle).
Proof.
  rewrite is_instance_idle_run.
  unfold fetch_idle_signals_for_instance, bind, invoke.
  destruct (Hmetrics h id lookback_mins (Z.max 60 (lookback_mins * 60 / 10)))
    as (resp & -> & Hok).
  destruct (record_results_ok resp no_signals
              (h ++ [GetMetricData id lookback_mins
                       (Z.max 60 (lookback_mins * 60 / 10))]) Hok)
    as (out' & ->).
  cbn. eauto.
Qed.

Lemma check_instance_ok d cap actions dbi h :
  exists cs line,
    check_instance cfg w d cap actions dbi h = (cs, Ok (actions ++ [line]))
    /\ instance_line dbi line.
Proof.
  unfold check_instance, instance_line.
  destruct (negb _); [eexists _, _; split; [reflexivity | auto]|].
  destruct (DBI.DBClusterIdentifier dbi) as [cluster|];
    [eexists _, _; split; [reflexivity | eauto 6]|].
  unfold bind at 1. rewrite get_effective_idle_minutes_run.
  set (window := match rds_list_tags_for_resource w h _ with
                 | Returns _ => _ | Raises _ => _ end).
  destruct (is_instance_idle_ok (DBI.DBInstanceIdentifier dbi)
              (Z.min window cap)
              (h ++ [ListTagsForResource (DBI.DBInstanceArn dbi)]))
    as (idle & E).
  rewrite (bind_ok _ _ _ _ _ E). destruct idle.
  - unfold bind. rewrite stop_instance_run.
    destruct (Hstops (((h ++ [ListTagsForResource (DBI.DBInstanceArn dbi)]))
                       ++ [GetMetricData (DBI.DBInstanceIdentifier dbi)
                             (Z.min window cap)
                             (Z.max 60 (Z.min window cap * 60 / 10))])
                     (DBI.DBInstanceIdentifier dbi)) as [Hs _].
    destruct (rds_stop_db_instance w _ _) as [[]|[message|name]];
      [| |discriminate Hs]; cbn; eexists _, _; (split; [reflexivity|]);
      eauto 8.
  - cbn. eexists _, _. split; [reflexivity | auto].
Qed.

Lemma check_cluster_ok d cap actions dbc h :
  exists cs line,
    check_cluster cfg w d cap actions dbc h = (cs, Ok (actions ++ [line]))
    /\ cluster_line dbc line.
Proof.
  unfold check_cluster, cluster_line.
  destruct (negb _); [eexists _, _; split; [reflexivity | auto]|].
  unfold bind at 1. rewrite get_effective_idle_minutes_run.
  set (window := match rds_list_tags_for_resource w h _ with
                 | Returns _ => _ | Raises _ => _ end).
  destruct (find_writer _) as [[|c s]|];
    try (cbn; eexists _, _; split; [reflexivity | auto]).
  destruct (is_instance_idle_ok (String c s) (Z.min window cap)
              (h ++ [ListTagsForResource (DBC.DBClusterArn dbc)]))
    as (idle & E).
  rewrite (bind_ok _ _ _ _ _ E). destruct idle.
  - unfold bind. rewrite stop_cluster_run.
    destruct (Hstops (((h ++ [ListTagsForResource (DBC.DBClusterArn dbc)]))
                       ++ [GetMetricData (String c s) (Z.min window cap)
                             (Z.max 60 (Z.min window cap * 60 / 10))])
                     (DBC.DBClusterIdentifier dbc)) as [_ Hs].
    destruct (rds_stop_db_cluster w _ _) as [[]|[message|name]];
      [| |discriminate Hs]; cbn; eexists _, _; (split; [reflexivity|]);
      eauto 8.
  - cbn. eexists _, _. split; [reflexivity | eauto 6].
Qed.

End WholeSweep.

Section Outcome.

Context (cfg : Config) (w : World).

(** C2, as the code has it: when the two listings return, CloudWatch
    answers every metric query and a stop is at worst refused with a
    [ClientError], the sweep returns one line per listed resource, in
    order, instances first; a refused stop becomes the line
    ["Could not stop ...: <message>"] of that resource and the
    resources after it are still evaluated. *)
Theorem sweep_records_every_resource_when_only_stops_are_refused
    (fuel : nat) (h : list call) (default_idle : Z)
    (cs_i cs_e cs_c : list call)
    (instances : list DBI.t) (clusters : list DBC.t)
    (Hmetrics : metrics_answered w)
    (Hstops : stops_refused_with_ClientError_only w)
    (Hdefault : snd (get_default_idle_minutes cfg w h) = Ok default_idle)
    (Hinstances :
       list_tagged_db_instances cfg w fuel
         (h ++ [SsmGetParameter (DEFAULT_IDLE_PARAM cfg)])
       = (cs_i, Ok instances))
    (Hloop :
       fst (foldM (check_instance cfg w default_idle
                     (DEFAULT_LOOKBACK_MINUTES cfg)) [] instances
              ((h ++ [SsmGetParameter (DEFAULT_IDLE_PARAM cfg)]) ++ cs_i))
       = cs_e)
    (Hclusters :
       list_tagged_db_clusters cfg w fuel
         (((h ++ [SsmGetParameter (DEFAULT_IDLE_PARAM cfg)]) ++ cs_i) ++ cs_e)
       = (cs_c, Ok clusters)) :
  exists cs_f lines_i lines_c,
    handle_check cfg w fuel h
    = (SsmGetParameter (DEFAULT_IDLE_PARAM cfg)
         :: cs_i ++ cs_e ++ cs_c ++ cs_f,
       Ok (lines_i ++ lines_c))
    /\ Forall2 instance_line instances lines_i
    /\ Forall2 cluster_line clusters lines_c
    /\ length (lines_i ++ lines_c) = (length instances + length clusters)%nat
    /\ (forall id h' message,
          rds_stop_db_instance w h' id = Raises (ClientError message) ->
          stop_instance w id h'
          = ([StopDBInstance id],
             Ok (false, "Could not stop instance " +:+ id +:+ ": " +:+ message)))
    /\ (forall id h' message,
          rds_stop_db_cluster w h' id = Raises (ClientError message) ->
          stop_cluster w id h'
          = ([StopDBCluster id],
             Ok (false, "Could not stop cluster " +:+ id +:+ ": " +:+ message))).
Proof.
  pose proof (get_default_idle_minutes_run cfg w h) as Hrun.
  rewrite Hrun in Hdefault. cbn [snd] in Hdefault. rewrite Hdefault in Hrun.
  destruct (foldM_one_line_each _ instance_line
              (check_instance_ok cfg w Hmetrics Hstops default_idle
                 (DEFAULT_LOOKBACK_MINUTES cfg))
              instances []
              ((h ++ [SsmGetParameter (DEFAULT_IDLE_PARAM cfg)]) ++ cs_i))
    as (cs_e' & lines_i & Ei & Ri).
  rewrite Ei in Hloop. cbn [fst] in Hloop. subst cs_e'. cbn [app] in Ei.
  destruct (foldM_one_line_each _ cluster_line
              (check_cluster_ok cfg w Hmetrics Hstops default_idle
                 (DEFAULT_LOOKBACK_MINUTES cfg))
              clusters lines_i
              ((((h ++ [SsmGetParameter (DEFAULT_IDLE_PARAM cfg)]) ++ cs_i)
                  ++ cs_e) ++ cs_c))
    as (cs_f & lines_c & Ec & Rc).
  exists cs_f, lines_i, lines_c.
  split; [|split; [exact Ri|split; [exact Rc|split; [|split]]]].
  - unfold handle_check. rewrite (bind_ok _ _ _ _ _ Hrun).
    unfold handle_check_from.
    rewrite (bind_ok _ _ _ _ _ Hinstances), (bind_ok _ _ _ _ _ Ei),
      (bind_ok _ _ _ _ _ Hclusters), (bind_ok _ _ _ _ _ Ec).
    cbn [fst snd ret app]. now rewrite app_nil_r.
  - rewrite length_app. apply Forall2_length in Ri, Rc. lia.
  - intros id h' message E. rewrite stop_instance_run. now rewrite E.
  - intros id h' message E. rewrite stop_cluster_run. now rewrite E.
Qed.

End Outcome.

(** ** The theorems on the small fleet *)

(** The sweep over the whole fleet: [db1] is idle and stopped, [db2] has
    connections, [db3] belongs to [c1], [db4] is stopped already, [db5]
    is not opted in; [c1] is stopped through its writer [db3], [c2] has
    no writer, [c3] is not available. *)
Example sweep_of_the_demo_fleet :
  snd (handle_check default_config Demo.world 5 [])
  = Ok ["Stop initiated for instance db1"; "Keep running db2: not idle";
        "Skip db3: part of cluster c1"; "Skip db4: status=stopped";
        "Stop initiated for cluster c1"; "Skip cluster c2: no writer found";
        "Skip cluster c3: status=stopped"].
Proof. vm_compute. reflexivity. Qed.

(** With the default thresholds a CPU peak of exactly one percent is
    idle, anything above is not, and neither is a single connection or
    any I/O. *)
Example verdicts_around_the_thresholds :
  idle_verdict default_config (<["m_cpu_max" := 1%float]> no_signals) = true
  /\ idle_verdict default_config (<["m_cpu_max" := 1.5%float]> no_signals) = false
  /\ idle_verdict default_config (<["m_conn_max" := 1%float]> no_signals) = false
  /\ idle_verdict default_config
       (<["m_read_sum" := 0%float]> (<["m_write_sum" := 0.5%float]> no_signals))
     = false
  /\ idle_verdict default_config no_signals = true.
Proof. repeat split; vm_compute; reflexivity. Qed.

(** A page budget that is too small leaves the listing, and the sweep,
    unfinished. *)
Example sweep_out_of_fuel :
  snd (handle_check default_config Demo.world 1 []) = OutOfFuel.
Proof. vm_compute. reflexivity. Qed.

(** The start request on the demo provider. *)
Example start_requests :
  handle_start Demo.world {| queryStringParameters := None |} []
  = ([], Ok (_http 400 [("error", "missing resource parameter")]))
  /\ fst (handle_start Demo.world
            {| queryStringParameters := Some {[ "resource" := "cluster:c1" ]} |} [])
     = [StartDBCluster "c1"]
  /\ fst (handle_start Demo.world
            {| queryStringParameters := Some {[ "db" := "db1" ]} |} [])
     = [StartDBInstance "db1"].
Proof. repeat split; vm_compute; reflexivity. Qed.

(** C2 as the claim states it fails: the fleet lists four instances and
    CloudWatch refuses the metric query of the first.  The error leaves
    [handle_check]: no list of lines is returned, and the three other
    instances and the clusters are never looked at. *)
Lemma metric_fetch_error_aborts_the_sweep :
  list_tagged_db_instances default_config Demo.world_metrics_fail 5
    [SsmGetParameter "/rds/idle_shutdown_minutes"]
  = ([DescribeDBInstances None; ListTagsForResource "arn:db1";
      ListTagsForResource "arn:db2"; ListTagsForResource "arn:db3";
      DescribeDBInstances (Some "page2"); ListTagsForResource "arn:db4";
      ListTagsForResource "arn:db5"],
     Ok [Demo.db1; Demo.db2; Demo.db3; Demo.db4])
  /\ handle_check default_config Demo.world_metrics_fail 5 []
     = ([SsmGetParameter "/rds/idle_shutdown_minutes";
         DescribeDBInstances None; ListTagsForResource "arn:db1";
         ListTagsForResource "arn:db2"; ListTagsForResource "arn:db3";
         DescribeDBInstances (Some "page2"); ListTagsForResource "arn:db4";
         ListTagsForResource "arn:db5";
         ListTagsForResource "arn:db1"; GetMetricData "db1" 20 120],
        Raise (ClientError "Rate exceeded")).
Proof. split; vm_compute; reflexivity. Qed.

Lemma demo_metrics_answered param tags stop :
  metrics_answered
    (Demo.world_with param tags (fun id => Returns (Demo.metrics_of id)) stop).
Proof.
  intros h id lookback_mins period. eexists. split; [reflexivity|].
  cbn. now destruct (String.eqb id "db2").
Qed.

Lemma demo_stops_refused :
  stops_refused_with_ClientError_only Demo.world_stop_refused.
Proof.
  intros h id. cbn. now destruct (String.eqb id "db1").
Qed.

(** C2 as the code has it, on the fleet where the stop of [db1] is
    refused and the parameter is missing: seven resources, seven lines. *)
Lemma sweep_with_a_refused_stop_witness :
  metrics_answered Demo.world_stop_refused
  /\ stops_refused_with_ClientError_only Demo.world_stop_refused
  /\ exists calls lines,
       handle_check default_config Demo.world_stop_refused 5 [] = (calls, Ok lines)
       /\ length lines = 7%nat.
Proof.
  split; [apply demo_metrics_answered|]. split; [apply demo_stops_refused|].
  edestruct (sweep_records_every_resource_when_only_stops_are_refused
               default_config Demo.world_stop_refused 5 [] 30)
    as (cs_f & lines_i & lines_c & E & _ & _ & Hlen & _).
  - apply demo_metrics_answered.
  - apply demo_stops_refused.
  - reflexivity.
  - vm_compute. reflexivity.
  - vm_compute. reflexivity.
  - vm_compute. reflexivity.
  - eexists _, _. split; [exact E | exact Hlen].
Defined.

(** C5 on the stopped instance [db4] and the stopped cluster [c3]. *)
Lemma unavailable_resources_witness :
  DBI.DBInstanceStatus Demo.db4 <> "available"
  /\ cluster_status_accepted (DBC.Status Demo.c3) = false
  /\ check_instance default_config Demo.world 30 20 [] Demo.db4 []
     = ([], Ok ["Skip db4: status=stopped"])
  /\ check_cluster default_config Demo.world 30 20 [] Demo.c3 []
     = ([], Ok ["Skip cluster c3: status=stopped"]).
Proof.
  assert (H1 : DBI.DBInstanceStatus Demo.db4 <> "available") by discriminate.
  assert (H2 : cluster_status_accepted (DBC.Status Demo.c3) = false)
    by reflexivity.
  destruct (unavailable_resources_are_skipped_without_calls
              default_config Demo.world 30 20 Demo.db4 Demo.c3 H1 H2)
    as (Hi & Hc & _).
  split; [exact H1|]. split; [exact H2|].
  split; [exact (Hi [] []) | exact (Hc [] [])].
Defined.

(** C6 on [db3], a member of [c1]. *)
Lemma cluster_member_witness :
  DBI.DBClusterIdentifier Demo.db3 = Some "c1"
  /\ exists line,
       check_instance default_config Demo.world 30 20 [] Demo.db3 []
       = ([], Ok [line])
       /\ line = "Skip db3: part of cluster c1".
Proof.
  split; [reflexivity|].
  destruct (cluster_members_are_skipped_by_the_instance_loop
              default_config Demo.world 30 20 Demo.db3 "c1" eq_refl)
    as (line & Hrun & _ & Hline & _).
  exists line. split; [exact (Hrun [] []) | exact (Hline eq_refl)].
Defined.

(** C7 on [c2], whose only member is a reader. *)
Lemma cluster_without_writer_witness :
  cluster_status_accepted (DBC.Status Demo.c2) = true
  /\ Forall (fun m => Member.IsClusterWriter m = false)
            (DBC.DBClusterMembers Demo.c2)
  /\ check_cluster default_config Demo.world 30 20 [] Demo.c2 []
     = ([ListTagsForResource "arn:c2"], Ok ["Skip cluster c2: no writer found"]).
Proof.
  assert (H1 : cluster_status_accepted (DBC.Status Demo.c2) = true)
    by reflexivity.
  assert (H2 : Forall (fun m => Member.IsClusterWriter m = false)
                      (DBC.DBClusterMembers Demo.c2))
    by (repeat constructor).
  split; [exact H1|]. split; [exact H2|].
  exact (proj1 (cluster_without_writer_is_skipped
                  default_config Demo.world 30 20 Demo.c2 H1 H2) [] []).
Defined.

(** * Beyond the sweep's contract *)

(** ** Tag lookup and writer search *)

(** X1: [_get_tag_value] returns the value of the first tag that has the
    key, so a later tag with the same key is never seen, and it returns
    [None] exactly when no tag has the key. *)
Theorem get_tag_value_is_the_first_match (tags : list Tag) (key : string) :
  (forall v,
      _get_tag_value tags key = Some v <->
      exists before t after,
        tags = before ++ t :: after
        /\ Forall (fun t' => Key t' <> key) before
        /\ Key t = key /\ Value t = v)
  /\ (_get_tag_value tags key = None <-> Forall (fun t => Key t <> key) tags).
Proof.
  induction tags as [|t tags [IHs IHn]]; cbn [_get_tag_value].
  - split.
    + intros v. split; [discriminate|].
      intros (before & t & after & E & _). now destruct before.
    + split; [constructor | reflexivity].
  - destruct (String.eqb (Key t) key) eqn:Ek.
    + apply String.eqb_eq in Ek. split.
      * intros v. split.
        -- intros [= <-]. exists [], t, tags. repeat split; [constructor | exact Ek].
        -- intros (before & t' & after & E & Hb & Hk & Hv).
           destruct before as [|b before]; cbn in E.
           ++ injection E as -> _. now rewrite Hv.
           ++ injection E as -> _. now inversion Hb.
      * split; [discriminate|]. intros H. now inversion H.
    + apply String.eqb_neq in Ek. split.
      * intros v. rewrite IHs. split.
        -- intros (before & t' & after & -> & Hb & Hk & Hv).
           exists (t :: before), t', after. repeat split; try assumption.
           now constructor.
        -- intros (before & t' & after & E & Hb & Hk & Hv).
           destruct before as [|b before]; cbn in E.
           ++ injection E as -> _. congruence.
           ++ injection E as -> ->. inversion Hb; subst.
              exists before, t', after. now repeat split.
      * rewrite IHn. split; [now constructor | intros H; now inversion H].
Qed.

(** X2: [find_writer] stops at the first member flagged as writer and
    returns that member's identifier, whatever follows.  So a cluster in
    an accepted status whose first flagged member has no identifier, or
    an empty one, is skipped as having no writer even when a later member
    is a writer with an identifier. *)
Theorem first_flagged_member_decides_the_writer
    (cfg : Config) (w : World)
    (before after : list Member.t) (m : Member.t)
    (Hbefore : Forall (fun m' => Member.IsClusterWriter m' = false) before)
    (Hm : Member.IsClusterWriter m = true) :
  find_writer (before ++ m :: after) = Member.DBInstanceIdentifier m
  /\ (forall dbc default_idle lookback_mins actions h,
        cluster_status_accepted (DBC.Status dbc) = true ->
        DBC.DBClusterMembers dbc = before ++ m :: after ->
        Member.DBInstanceIdentifier m = None
        \/ Member.DBInstanceIdentifier m = Some "" ->
        check_cluster cfg w default_idle lookback_mins actions dbc h
        = ([ListTagsForResource (DBC.DBClusterArn dbc)],
           Ok (actions ++ [skip_cluster_no_writer (DBC.DBClusterIdentifier dbc)]))).
Proof.
  assert (E : find_writer (before ++ m :: after) = Member.DBInstanceIdentifier m).
  { induction Hbefore as [|m' before Hm' _ IH]; cbn [find_writer app].
    - now rewrite Hm.
    - now rewrite Hm'. }
  split; [exact E|].
  intros dbc default_idle lookback_mins actions h Hs Hmem Hid.
  unfold check_cluster. rewrite Hs, Hmem, E. cbn [negb].
  unfold bind. rewrite get_effective_idle_minutes_run.
  now destruct Hid as [-> | ->].
Qed.

(** X2 on the cluster [c4], whose members are a reader, a writer without
    identifier and a writer named [db7]. *)
Lemma first_flagged_member_witness :
  find_writer (DBC.DBClusterMembers DemoMore.c4) = None
  /\ check_cluster default_config Demo.world 30 20 [] DemoMore.c4 []
     = ([ListTagsForResource "arn:c4"], Ok ["Skip cluster c4: no writer found"]).
Proof.
  pose proof (first_flagged_member_decides_the_writer default_config Demo.world
                [ {| Member.IsClusterWriter := false;
                     Member.DBInstanceIdentifier := Some "db6" |} ]
                [ {| Member.IsClusterWriter := true;
                     Member.DBInstanceIdentifier := Some "db7" |} ]
                {| Member.IsClusterWriter := true;
                   Member.DBInstanceIdentifier := None |}
                ltac:(repeat constructor) eq_refl) as [E H].
  split; [exact E|].
  exact (H DemoMore.c4 30 20 [] [] eq_refl eq_refl (or_introl eq_refl)).
Defined.

(** ** Metric ids *)

Lemma replace_char_absent (old new : ascii) (s : string) :
  old <> new -> ~ In old (list_ascii_of_string (replace_char old new s)).
Proof.
  intros Hne. induction s as [|c s IH]; cbn; [tauto|].
  intros [E|H]; [|tauto].
  destruct (Ascii.eqb c old) eqn:Ec.
  - congruence.
  - apply Ascii.eqb_neq in Ec. congruence.
Qed.

(** X3: an id built by [_metric_id] has no slash left.  With the prefix
    ["m"] it reads ["m_"] followed by the name with its slashes turned
    into underscores, and cutting it at its first underscore and putting
    ["m_"] back in front gives the id again: a result that carries the id
    of its query is filed under that very id. *)
Theorem metric_id_is_its_own_filing_key (w : World) (name : string) :
  (forall prefix,
      ~ In "/"%char (list_ascii_of_string (_metric_id prefix name)))
  /\ _metric_id "m" name = "m_" +:+ replace_char "/" "_" name
  /\ split_once "_" (_metric_id "m" name)
     = Some ("m", replace_char "/" "_" name)
  /\ (forall out v vs h,
        record_result w out {| Id := _metric_id "m" name; Values := v :: vs |} h
        = ([], Ok (<[_metric_id "m" name :=
                       if endswith (_metric_id "m" name) "conn_max"
                          || endswith (_metric_id "m" name) "cpu_max"
                       then py_max v vs else py_sum w (v :: vs)]> out))).
Proof.
  assert (E : split_once "_" (_metric_id "m" name)
              = Some ("m", replace_char "/" "_" name)) by reflexivity.
  split; [intros prefix; now apply replace_char_absent|].
  split; [reflexivity|]. split; [exact E|].
  intros out v vs h. unfold record_result, id_suffix. cbn [Id Values].
  rewrite E.
  now destruct (endswith _ "conn_max" || endswith _ "cpu_max").
Qed.

(** ** The metric fetch *)

Lemma record_result_keeps_keys (w : World) out r h cs out' :
  record_result w out r h = (cs, Ok out') ->
  forall key, is_Some (out !! key) -> is_Some (out' !! key).
Proof.
  unfold record_result, id_suffix.
  destruct (Values r) as [|v vs].
  - intros [= _ <-]. auto.
  - destruct (split_once "_" (Id r)) as [[p suffix]|];
      destruct (endswith _ "conn_max" || endswith _ "cpu_max");
      unfold bind, ret, raise; cbn; intros [= _ <-] || discriminate;
      intros key Hkey; apply lookup_insert_is_Some'; auto.
Qed.

Lemma record_results_keep_keys (w : World) resp out h cs out' :
  foldM (record_result w) out resp h = (cs, Ok out') ->
  forall key, is_Some (out !! key) -> is_Some (out' !! key).
Proof.
  revert out h cs. induction resp as [|r resp IH]; intros out h cs; cbn [foldM].
  - intros [= _ <-]. auto.
  - unfold bind. destruct (record_result w out r h) as [cs1 [out1| |]] eqn:E1;
      try discriminate.
    destruct (foldM _ out1 resp (h ++ cs1)) as [cs2 r2] eqn:E2.
    intros [= _ ->] key Hkey.
    eapply IH; [exact E2|]. eapply record_result_keeps_keys; eauto.
Qed.

(** X4: whatever CloudWatch answers, the dictionary
    [fetch_idle_signals_for_instance] returns still has the four keys it
    starts with: results are only ever added or overwritten.  The fetch
    has made one call, the metric query. *)
Theorem fetched_signals_have_the_four_keys
    (w : World) (id : string) (lookback_mins : Z) (h cs : list call)
    (m : gmap string float)
    (Hfetch : fetch_idle_signals_for_instance w id lookback_mins h = (cs, Ok m)) :
  is_Some (m !! "m_conn_max") /\ is_Some (m !! "m_read_sum")
  /\ is_Some (m !! "m_write_sum") /\ is_Some (m !! "m_cpu_max")
  /\ cs = [GetMetricData id lookback_mins (Z.max 60 (lookback_mins * 60 / 10))].
Proof.
  pose proof (fetch_idle_signals_calls w id lookback_mins h) as Hcs.
  rewrite Hfetch in Hcs. cbn [fst] in Hcs.
  unfold fetch_idle_signals_for_instance, bind, invoke in Hfetch.
  destruct (cw_get_metric_data w h id _ _) as [resp|e]; [|discriminate].
  destruct (foldM _ no_signals resp _) as [cs' r] eqn:E.
  injection Hfetch as _ ->.
  repeat split; try exact Hcs;
    (eapply record_results_keep_keys; [exact E|]); now eexists.
Qed.

Lemma fetched_signals_witness :
  exists cs m,
    fetch_idle_signals_for_instance Demo.world "db2" 5 [] = (cs, Ok m)
    /\ is_Some (m !! "m_write_sum").
Proof.
  destruct (fetch_idle_signals_for_instance Demo.world "db2" 5 [])
    as [cs [m| |]] eqn:E; try (vm_compute in E; discriminate E).
  exists cs, m. split; [reflexivity|].
  exact (proj1 (proj2 (proj2
           (fetched_signals_have_the_four_keys Demo.world "db2" 5 [] cs m E)))).
Defined.

Lemma record_results_without_values (w : World) resp out h :
  Forall (fun r => Values r = []) resp ->
  foldM (record_result w) out resp h = ([], Ok out).
Proof.
  intros H. revert h. induction H as [|r resp Hr _ IH]; intros h; cbn [foldM].
  - reflexivity.
  - unfold bind, record_result. rewrite Hr. cbn. now rewrite IH.
Qed.

(** X5: when no result of the metric query has a datapoint, the signals
    stay at their initial 0.0, and with thresholds that are not negative
    the instance is judged idle. *)
Theorem no_datapoints_means_idle
    (cfg : Config) (w : World) (id : string) (lookback_mins : Z)
    (h : list call) (resp : list MetricDataResult)
    (Hresp : cw_get_metric_data w h id lookback_mins
               (Z.max 60 (lookback_mins * 60 / 10)) = Returns resp)
    (Hempty : Forall (fun r => Values r = []) resp)
    (Hconnections : 0 <= CONNECTIONS_THRESHOLD cfg)
    (Hiops : 0 <= IOPS_THRESHOLD cfg)
    (Hcpu : PrimFloat.leb 0 (CPU_PCT_THRESHOLD cfg) = true) :
  fetch_idle_signals_for_instance w id lookback_mins h
  = ([GetMetricData id lookback_mins (Z.max 60 (lookback_mins * 60 / 10))],
     Ok no_signals)
  /\ is_instance_idle cfg w id lookback_mins h
     = ([GetMetricData id lookback_mins (Z.max 60 (lookback_mins * 60 / 10))],
        Ok true).
Proof.
  assert (E : fetch_idle_signals_for_instance w id lookback_mins h
    = ([GetMetricData id lookback_mins (Z.max 60 (lookback_mins * 60 / 10))],
       Ok no_signals)).
  { unfold fetch_idle_signals_for_instance, bind, invoke. rewrite Hresp.
    now rewrite record_results_without_values. }
  split; [exact E|].
  rewrite is_instance_idle_run, E. do 2 f_equal.
  unfold idle_verdict.
  change (signal no_signals "m_conn_max") with 0%float.
  change (signal no_signals "m_read_sum" + signal no_signals "m_write_sum")%float
    with 0%float.
  change (signal no_signals "m_cpu_max") with 0%float.
  change (float_le_int 0 (CONNECTIONS_THRESHOLD cfg))
    with (0 <=? CONNECTIONS_THRESHOLD cfg).
  change (float_le_int 0 (IOPS_THRESHOLD cfg)) with (0 <=? IOPS_THRESHOLD cfg).
  rewrite Hcpu. apply Z.leb_le in Hconnections, Hiops.
  now rewrite Hconnections, Hiops.
Qed.

Lemma no_datapoints_witness :
  is_instance_idle default_config DemoMore.world_no_datapoints "db1" 20 []
  = ([GetMetricData "db1" 20 120], Ok true).
Proof.
  refine (proj2 (no_datapoints_means_idle default_config
                   DemoMore.world_no_datapoints "db1" 20 []
                   [Demo.result "m_conn_max" []; Demo.result "m_cpu_max" []]
                   eq_refl _ _ _ eq_refl)).
  - repeat constructor.
  - discriminate.
  - discriminate.
Defined.

(** X6: when CloudWatch answers with one result per query, each carrying
    the id of its query, the signals are the maximum of the connection
    datapoints, the sums of the read and of the write datapoints and the
    maximum of the CPU datapoints; a result without datapoints leaves
    its signal at 0.0. *)
Theorem signals_of_an_echoed_response
    (w : World) (id : string) (lookback_mins : Z) (h : list call)
    (conn read write cpu : list float)
    (Hresp : cw_get_metric_data w h id lookback_mins
               (Z.max 60 (lookback_mins * 60 / 10))
             = Returns (zip_with (fun query values =>
                                    {| Id := snd query; Values := values |})
                                 idle_signal_queries [conn; read; write; cpu])) :
  exists m,
    fetch_idle_signals_for_instance w id lookback_mins h
    = ([GetMetricData id lookback_mins (Z.max 60 (lookback_mins * 60 / 10))],
       Ok m)
    /\ signal m "m_conn_max"
       = match conn with [] => 0%float | v :: vs => py_max v vs end
    /\ signal m "m_read_sum"
       = match read with [] => 0%float | _ :: _ => py_sum w read end
    /\ signal m "m_write_sum"
       = match write with [] => 0%float | _ :: _ => py_sum w write end
    /\ signal m "m_cpu_max"
       = match cpu with [] => 0%float | v :: vs => py_max v vs end.
Proof.
  unfold fetch_idle_signals_for_instance, bind, invoke. rewrite Hresp.
  destruct conn, read, write, cpu; eexists; (split; [reflexivity|]);
    repeat split; reflexivity.
Qed.

Lemma echoed_response_witness :
  exists m,
    fetch_idle_signals_for_instance Demo.world "db2" 5 []
    = ([GetMetricData "db2" 5 60], Ok m)
    /\ signal m "m_conn_max" = 3%float
    /\ signal m "m_cpu_max" = 0.5%float.
Proof.
  destruct (signals_of_an_echoed_response Demo.world "db2" 5 []
              [1; 3; 2]%float [0; 0]%float [] [0.25; 0.5]%float eq_refl)
    as (m & E & Hconn & _ & _ & Hcpu).
  exists m. split; [exact E|]. split; [exact Hconn | exact Hcpu].
Defined.

Lemma record_results_raise (w : World) before r after out h :
  forallb result_id_ok before = true ->
  Values r <> [] ->
  split_once "_" (Id r) = None ->
  foldM (record_result w) out (before ++ r :: after) h
  = ([], Raise (OtherError "IndexError")).
Proof.
  intros Hb Hv Hid. rewrite foldM_app.
  destruct (record_results_ok w before out h Hb) as (out1 & E1).
  rewrite (bind_ok _ _ _ _ _ E1). cbn [foldM fst snd app].
  unfold bind, record_result, id_suffix. rewrite Hid.
  destruct (Values r); [congruence|].
  now destruct (endswith _ "conn_max" || endswith _ "cpu_max").
Qed.

(** X7: a result that has datapoints and an id without underscore makes
    the fetch raise [IndexError] after the query, and [is_instance_idle]
    with it; the same id on a result without datapoints is passed over. *)
Theorem result_id_without_underscore_raises
    (cfg : Config) (w : World) (id : string) (lookback_mins : Z)
    (h : list call) (before after : list MetricDataResult)
    (r : MetricDataResult)
    (Hresp : cw_get_metric_data w h id lookback_mins
               (Z.max 60 (lookback_mins * 60 / 10))
             = Returns (before ++ r :: after))
    (Hbefore : forallb result_id_ok before = true)
    (Hvalues : Values r <> [])
    (Hid : split_once "_" (Id r) = None) :
  fetch_idle_signals_for_instance w id lookback_mins h
  = ([GetMetricData id lookback_mins (Z.max 60 (lookback_mins * 60 / 10))],
     Raise (OtherError "IndexError"))
  /\ is_instance_idle cfg w id lookback_mins h
     = ([GetMetricData id lookback_mins (Z.max 60 (lookback_mins * 60 / 10))],
        Raise (OtherError "IndexError"))
  /\ (forall out h',
        record_result w out {| Id := Id r; Values := [] |} h' = ([], Ok out)).
Proof.
  assert (E : fetch_idle_signals_for_instance w id lookback_mins h
    = ([GetMetricData id lookback_mins (Z.max 60 (lookback_mins * 60 / 10))],
       Raise (OtherError "IndexError"))).
  { unfold fetch_idle_signals_for_instance, bind, invoke. rewrite Hresp.
    now rewrite record_results_raise. }
  split; [exact E|]. split; [|reflexivity].
  now rewrite is_instance_idle_run, E.
Qed.

Lemma odd_metric_id_witness :
  is_instance_idle default_config DemoMore.world_odd_metric_id "db1" 20 []
  = ([GetMetricData "db1" 20 120], Raise (OtherError "IndexError")).
Proof.
  refine (proj1 (proj2 (result_id_without_underscore_raises default_config
                          DemoMore.world_odd_metric_id "db1" 20 []
                          [Demo.result "m_conn_max" [0%float]] []
                          (Demo.result "cpumax" [0.5%float])
                          eq_refl eq_refl _ eq_refl))).
  discriminate.
Defined.


(** ** When a stop is issued *)

Lemma check_instance_run (cfg : Config) (w : World) d cap actions dbi h :
  DBI.DBInstanceStatus dbi = "available" ->
  DBI.DBClusterIdentifier dbi = None ->
  exists window,
    get_effective_idle_minutes w (DBI.DBInstanceArn dbi) d h
    = ([ListTagsForResource (DBI.DBInstanceArn dbi)], Ok window)
    /\ check_instance cfg w d cap actions dbi h
       = match is_instance_idle cfg w (DBI.DBInstanceIdentifier dbi)
                 (Z.min window cap)
                 (h ++ [ListTagsForResource (DBI.DBInstanceArn dbi)]) with
         | (cs, Ok true) =>
             (ListTagsForResource (DBI.DBInstanceArn dbi)
                :: cs ++ [StopDBInstance (DBI.DBInstanceIdentifier dbi)],
              match rds_stop_db_instance w
                      ((h ++ [ListTagsForResource (DBI.DBInstanceArn dbi)]) ++ cs)
                      (DBI.DBInstanceIdentifier dbi) with
              | Returns _ =>
                  Ok (actions ++ ["Stop initiated for instance "
                                  +:+ DBI.DBInstanceIdentifier dbi])
              | Raises (ClientError message) =>
                  Ok (actions ++ ["Could not stop instance "
                                  +:+ DBI.DBInstanceIdentifier dbi
                                  +:+ ": " +:+ message])
              | Raises (OtherError name) => Raise (OtherError name)
              end)
         | (cs, Ok false) =>
             (ListTagsForResource (DBI.DBInstanceArn dbi) :: cs,
              Ok (actions ++ [keep_instance (DBI.DBInstanceIdentifier dbi)]))
         | (cs, Raise e) =>
             (ListTagsForResource (DBI.DBInstanceArn dbi) :: cs, Raise e)
         | (cs, OutOfFuel) =>
             (ListTagsForResource (DBI.DBInstanceArn dbi) :: cs, OutOfFuel)
         end.
Proof.
  intros Hs Hc.
  pose proof (get_effective_idle_minutes_run w (DBI.DBInstanceArn dbi) d h)
    as Hrun.
  set (window := match rds_list_tags_for_resource w h _ with
                 | Returns _ => _ | Raises _ => _ end) in Hrun.
  exists window. split; [exact Hrun|].
  unfold check_instance. rewrite Hs, Hc.
  change (negb (String.eqb "available" "available")) with false. cbv iota.
  unfold bind. rewrite Hrun.
  destruct (is_instance_idle _ _ _ _ _) as [cs [[|]| |]]; try reflexivity.
  - rewrite stop_instance_run.
    destruct (rds_stop_db_instance w _ _) as [[]|[message|name]]; cbn;
      now rewrite ?app_nil_r.
  - cbn. now rewrite app_nil_r.
Qed.

(** X9: for an available instance outside any cluster, the instance
    loop stops something only when the verdict on its own metrics is
    idle, and then it stops that instance and nothing else.  A verdict
    of not idle records the keep line, an error of the metric fetch
    leaves the loop, and after an idle verdict the answer of the provider
    decides: a line for a stop that went through or was refused with a
    [ClientError], and any other error leaves the loop with no line. *)
Theorem instance_is_stopped_exactly_when_idle
    (cfg : Config) (w : World) (default_idle lookback_mins : Z)
    (actions : list string) (dbi : DBI.t) (h : list call)
    (Hstatus : DBI.DBInstanceStatus dbi = "available")
    (Hstandalone : DBI.DBClusterIdentifier dbi = None) :
  exists window cs,
    get_effective_idle_minutes w (DBI.DBInstanceArn dbi) default_idle h
    = ([ListTagsForResource (DBI.DBInstanceArn dbi)], Ok window)
    /\ fst (is_instance_idle cfg w (DBI.DBInstanceIdentifier dbi)
              (Z.min window lookback_mins)
              (h ++ [ListTagsForResource (DBI.DBInstanceArn dbi)])) = cs
    /\ (forall c,
          In c (fst (check_instance cfg w default_idle lookback_mins actions dbi h)) ->
          is_stop c = true ->
          c = StopDBInstance (DBI.DBInstanceIdentifier dbi))
    /\ (In (StopDBInstance (DBI.DBInstanceIdentifier dbi))
           (fst (check_instance cfg w default_idle lookback_mins actions dbi h))
        <-> snd (is_instance_idle cfg w (DBI.DBInstanceIdentifier dbi)
                   (Z.min window lookback_mins)
                   (h ++ [ListTagsForResource (DBI.DBInstanceArn dbi)]))
            = Ok true)
    /\ snd (check_instance cfg w default_idle lookback_mins actions dbi h)
       = match snd (is_instance_idle cfg w (DBI.DBInstanceIdentifier dbi)
                      (Z.min window lookback_mins)
                      (h ++ [ListTagsForResource (DBI.DBInstanceArn dbi)])) with
         | Ok true =>
             match rds_stop_db_instance w
                     ((h ++ [ListTagsForResource (DBI.DBInstanceArn dbi)]) ++ cs)
                     (DBI.DBInstanceIdentifier dbi) with
             | Returns _ =>
                 Ok (actions ++ ["Stop initiated for instance "
                                 +:+ DBI.DBInstanceIdentifier dbi])
             | Raises (ClientError message) =>
                 Ok (actions ++ ["Could not stop instance "
                                 +:+ DBI.DBInstanceIdentifier dbi
                                 +:+ ": " +:+ message])
             | Raises (OtherError name) => Raise (OtherError name)
             end
         | Ok false => Ok (actions ++ [keep_instance (DBI.DBInstanceIdentifier dbi)])
         | Raise e => Raise e
         | OutOfFuel => OutOfFuel
         end.
Proof.
  destruct (check_instance_run cfg w default_idle lookback_mins actions dbi h
              Hstatus Hstandalone) as (window & Hrun & E).
  exists window. eexists. split; [exact Hrun|]. split; [reflexivity|].
  rewrite E.
  pose proof (is_instance_idle_calls cfg w (DBI.DBInstanceIdentifier dbi)
                (Z.min window lookback_mins)
                (h ++ [ListTagsForResource (DBI.DBInstanceArn dbi)])) as Hcs.
  destruct (is_instance_idle _ _ _ _ _) as [cs [[|]| |]]; cbn [fst snd] in *;
    subst cs; cbn [app fst snd].
  - split; [|split; [|reflexivity]].
    + intros c [<- | [<- | [<- | []]]]; (discriminate || reflexivity).
    + split; [reflexivity | intros _; cbn; tauto].
  - split; [|split; [|reflexivity]].
    + intros c [<- | [<- | []]]; discriminate.
    + split; [intros [E' | [E' | []]]; discriminate | discriminate].
  - split; [|split; [|reflexivity]].
    + intros c [<- | [<- | []]]; discriminate.
    + split; [intros [E' | [E' | []]]; discriminate | discriminate].
  - split; [|split; [|reflexivity]].
    + intros c [<- | [<- | []]]; discriminate.
    + split; [intros [E' | [E' | []]]; discriminate | discriminate].
Qed.

Lemma check_cluster_run (cfg : Config) (w : World) d cap actions dbc writer h :
  cluster_status_accepted (DBC.Status dbc) = true ->
  find_writer (DBC.DBClusterMembers dbc) = Some writer ->
  writer <> "" ->
  exists window,
    get_effective_idle_minutes w (DBC.DBClusterArn dbc) d h
    = ([ListTagsForResource (DBC.DBClusterArn dbc)], Ok window)
    /\ check_cluster cfg w d cap actions dbc h
       = match is_instance_idle cfg w writer (Z.min window cap)
                 (h ++ [ListTagsForResource (DBC.DBClusterArn dbc)]) with
         | (cs, Ok true) =>
             (ListTagsForResource (DBC.DBClusterArn dbc)
                :: cs ++ [StopDBCluster (DBC.DBClusterIdentifier dbc)],
              match rds_stop_db_cluster w
                      ((h ++ [ListTagsForResource (DBC.DBClusterArn dbc)]) ++ cs)
                      (DBC.DBClusterIdentifier dbc) with
              | Returns _ =>
                  Ok (actions ++ ["Stop initiated for cluster "
                                  +:+ DBC.DBClusterIdentifier dbc])
              | Raises (ClientError message) =>
                  Ok (actions ++ ["Could not stop cluster "
                                  +:+ DBC.DBClusterIdentifier dbc
                                  +:+ ": " +:+ message])
              | Raises (OtherError name) => Raise (OtherError name)
              end)
         | (cs, Ok false) =>
             (ListTagsForResource (DBC.DBClusterArn dbc) :: cs,
              Ok (actions ++ [keep_cluster (DBC.DBClusterIdentifier dbc) writer]))
         | (cs, Raise e) =>
             (ListTagsForResource (DBC.DBClusterArn dbc) :: cs, Raise e)
         | (cs, OutOfFuel) =>
             (ListTagsForResource (DBC.DBClusterArn dbc) :: cs, OutOfFuel)
         end.
Proof.
  intros Hs Hw Hne.
  pose proof (get_effective_idle_minutes_run w (DBC.DBClusterArn dbc) d h)
    as Hrun.
  set (window := match rds_list_tags_for_resource w h _ with
                 | Returns _ => _ | Raises _ => _ end) in Hrun.
  exists window. split; [exact Hrun|].
  unfold check_cluster. rewrite Hs, Hw. cbn [negb].
  destruct writer as [|c s]; [congruence|].
  unfold bind. rewrite Hrun.
  destruct (is_instance_idle _ _ _ _ _) as [cs [[|]| |]]; try reflexivity.
  - rewrite stop_cluster_run.
    destruct (rds_stop_db_cluster w _ _) as [[]|[message|name]]; cbn;
      now rewrite ?app_nil_r.
  - cbn. now rewrite app_nil_r.
Qed.

(** X10: for a cluster in an accepted status with a writer, the verdict
    is taken on the metrics of the writer instance, and the only stop
    the cluster loop can issue is the stop of the cluster itself, never
    of the writer instance; it is issued exactly when that verdict is
    idle.  A verdict of not idle records the keep line with the writer's
    name, and errors behave as in the instance loop. *)
Theorem cluster_is_stopped_exactly_when_its_writer_is_idle
    (cfg : Config) (w : World) (default_idle lookback_mins : Z)
    (actions : list string) (dbc : DBC.t) (writer : string) (h : list call)
    (Hstatus : cluster_status_accepted (DBC.Status dbc) = true)
    (Hwriter : find_writer (DBC.DBClusterMembers dbc) = Some writer)
    (Hnonempty : writer <> "") :
  exists window cs,
    get_effective_idle_minutes w (DBC.DBClusterArn dbc) default_idle h
    = ([ListTagsForResource (DBC.DBClusterArn dbc)], Ok window)
    /\ fst (is_instance_idle cfg w writer (Z.min window lookback_mins)
              (h ++ [ListTagsForResource (DBC.DBClusterArn dbc)])) = cs
    /\ (forall c,
          In c (fst (check_cluster cfg w default_idle lookback_mins actions dbc h)) ->
          is_stop c = true ->
          c = StopDBCluster (DBC.DBClusterIdentifier dbc))
    /\ (In (StopDBCluster (DBC.DBClusterIdentifier dbc))
           (fst (check_cluster cfg w default_idle lookback_mins actions dbc h))
        <-> snd (is_instance_idle cfg w writer (Z.min window lookback_mins)
                   (h ++ [ListTagsForResource (DBC.DBClusterArn dbc)]))
            = Ok true)
    /\ snd (check_cluster cfg w default_idle lookback_mins actions dbc h)
       = match snd (is_instance_idle cfg w writer (Z.min window lookback_mins)
                      (h ++ [ListTagsForResource (DBC.DBClusterArn dbc)])) with
         | Ok true =>
             match rds_stop_db_cluster w
                     ((h ++ [ListTagsForResource (DBC.DBClusterArn dbc)]) ++ cs)
                     (DBC.DBClusterIdentifier dbc) with
             | Returns _ =>
                 Ok (actions ++ ["Stop initiated for cluster "
                                 +:+ DBC.DBClusterIdentifier dbc])
             | Raises (ClientError message) =>
                 Ok (actions ++ ["Could not stop cluster "
                                 +:+ DBC.DBClusterIdentifier dbc
                                 +:+ ": " +:+ message])
             | Raises (OtherError name) => Raise (OtherError name)
             end
         | Ok false =>
             Ok (actions ++ [keep_cluster (DBC.DBClusterIdentifier dbc) writer])
         | Raise e => Raise e
         | OutOfFuel => OutOfFuel
         end.
Proof.
  destruct (check_cluster_run cfg w default_idle lookback_mins actions dbc
              writer h Hstatus Hwriter Hnonempty) as (window & Hrun & E).
  exists window. eexists. split; [exact Hrun|]. split; [reflexivity|].
  rewrite E.
  pose proof (is_instance_idle_calls cfg w writer (Z.min window lookback_mins)
                (h ++ [ListTagsForResource (DBC.DBClusterArn dbc)])) as Hcs.
  destruct (is_instance_idle _ _ _ _ _) as [cs [[|]| |]]; cbn [fst snd] in *;
    subst cs; cbn [app fst snd].
  - split; [|split; [|reflexivity]].
    + intros c [<- | [<- | [<- | []]]]; (discriminate || reflexivity).
    + split; [reflexivity | intros _; cbn; tauto].
  - split; [|split; [|reflexivity]].
    + intros c [<- | [<- | []]]; discriminate.
    + split; [intros [E' | [E' | []]]; discriminate | discriminate].
  - split; [|split; [|reflexivity]].
    + intros c [<- | [<- | []]]; discriminate.
    + split; [intros [E' | [E' | []]]; discriminate | discriminate].
  - split; [|split; [|reflexivity]].
    + intros c [<- | [<- | []]]; discriminate.
    + split; [intros [E' | [E' | []]]; discriminate | discriminate].
Qed.

(** X9 on [db1], quiet, and on [db2], which has connections. *)
Lemma instance_stop_witness :
  In (StopDBInstance "db1")
     (fst (check_instance default_config Demo.world 30 20 [] Demo.db1 []))
  /\ ~ In (StopDBInstance "db2")
          (fst (check_instance default_config Demo.world 30 20 [] Demo.db2 [])).
Proof.
  destruct (instance_is_stopped_exactly_when_idle default_config Demo.world
              30 20 [] Demo.db1 [] eq_refl eq_refl)
    as (window1 & cs1 & Hw1 & _ & _ & Hiff1 & _).
  injection Hw1 as <-.
  destruct (instance_is_stopped_exactly_when_idle default_config Demo.world
              30 20 [] Demo.db2 [] eq_refl eq_refl)
    as (window2 & cs2 & Hw2 & _ & _ & Hiff2 & _).
  injection Hw2 as <-.
  split.
  - apply Hiff1. vm_compute. reflexivity.
  - intros Hin. apply Hiff2 in Hin. vm_compute in Hin. discriminate Hin.
Defined.

(** X10 on [c1], whose writer [db3] is quiet. *)
Lemma cluster_stop_witness :
  In (StopDBCluster "c1")
     (fst (check_cluster default_config Demo.world 30 20 [] Demo.c1 []))
  /\ ~ In (StopDBInstance "db3")
          (fst (check_cluster default_config Demo.world 30 20 [] Demo.c1 [])).
Proof.
  destruct (cluster_is_stopped_exactly_when_its_writer_is_idle default_config
              Demo.world 30 20 [] Demo.c1 "db3" [] eq_refl eq_refl)
    as (window & cs & Hw & _ & Honly & Hiff & _); [discriminate|].
  injection Hw as <-.
  split.
  - apply Hiff. vm_compute. reflexivity.
  - intros Hin. apply Honly in Hin; [discriminate Hin | reflexivity].
Defined.

(** ** What a sweep never does *)

Lemma stops_follow_fetches_weaken b cs :
  stops_follow_fetches false cs = true -> stops_follow_fetches b cs = true.
Proof.
  destruct cs as [|c cs]; [reflexivity|]. cbn [stops_follow_fetches].
  destruct (is_stop c); [discriminate | auto].
Qed.

Lemma stops_follow_fetches_app b cs1 cs2 :
  stops_follow_fetches b cs1 = true ->
  stops_follow_fetches false cs2 = true ->
  stops_follow_fetches b (cs1 ++ cs2) = true.
Proof.
  revert b. induction cs1 as [|c cs1 IH]; intros b H1 H2; cbn [app].
  - now apply stops_follow_fetches_weaken.
  - cbn [stops_follow_fetches] in *. apply andb_true_iff in H1 as [Hc H1].
    rewrite Hc. cbn [andb]. now apply IH.
Qed.

Lemma stops_follow_fetches_no_stop b cs :
  Forall (fun c => is_stop c = false) cs -> stops_follow_fetches b cs = true.
Proof.
  intros H. revert b. induction H as [|c cs Hc _ IH]; intros b;
    cbn [stops_follow_fetches]; [reflexivity|].
  now rewrite Hc, IH.
Qed.

Lemma fetches_before_stops_no_stop {A} (m : M A) :
  emits (fun c => is_stop c = false) m -> fetches_before_stops m.
Proof. intros H h. apply stops_follow_fetches_no_stop, H. Qed.

Lemma fetches_before_stops_bind {A B} (m : M A) (k : A -> M B) :
  fetches_before_stops m -> (forall a, fetches_before_stops (k a)) ->
  fetches_before_stops (bind m k).
Proof.
  intros Hm Hk h. unfold bind. specialize (Hm h).
  destruct (m h) as [cs [a| |]]; cbn [fst] in *; try assumption.
  specialize (Hk a (h ++ cs)). destruct (k a (h ++ cs)) as [cs' r].
  now apply stops_follow_fetches_app.
Qed.

Lemma fetches_before_stops_foldM {A B} (f : B -> A -> M B) l acc :
  (forall acc x, fetches_before_stops (f acc x)) ->
  fetches_before_stops (foldM f acc l).
Proof.
  intros Hf. revert acc. induction l as [|x l IH]; intros acc; cbn [foldM].
  - intros h. reflexivity.
  - apply fetches_before_stops_bind; [apply Hf | intros acc'; apply IH].
Qed.

Lemma fetches_before_stops_check_instance cfg w d cap actions dbi :
  fetches_before_stops (check_instance cfg w d cap actions dbi).
Proof.
  intros h.
  destruct (String.eqb (DBI.DBInstanceStatus dbi) "available") eqn:Hs.
  - destruct (DBI.DBClusterIdentifier dbi) as [cluster|] eqn:Hc.
    + unfold check_instance. now rewrite Hs, Hc.
    + apply String.eqb_eq in Hs.
      destruct (check_instance_evaluated cfg w d cap actions dbi h Hs Hc)
        as (window & tail & _ & -> & [-> | ->]); reflexivity.
  - unfold check_instance. now rewrite Hs.
Qed.

Lemma fetches_before_stops_check_cluster cfg w d cap actions dbc :
  fetches_before_stops (check_cluster cfg w d cap actions dbc).
Proof.
  intros h.
  destruct (cluster_status_accepted (DBC.Status dbc)) eqn:Hs.
  - destruct (find_writer (DBC.DBClusterMembers dbc)) as [[|c s]|] eqn:Hw.
    + unfold check_cluster. rewrite Hs, Hw. cbn [negb]. unfold bind.
      now rewrite get_effective_idle_minutes_run.
    + destruct (check_cluster_evaluated cfg w d cap actions dbc (String c s) h
                  Hs Hw ltac:(discriminate))
        as (window & tail & _ & -> & [-> | ->]); reflexivity.
    + unfold check_cluster. rewrite Hs, Hw. cbn [negb]. unfold bind.
      now rewrite get_effective_idle_minutes_run.
  - unfold check_cluster. now rewrite Hs.
Qed.

(** X11: in a sweep every stop, of an instance or of a cluster, comes
    right after a metric fetch: nothing is stopped whose metrics were
    not read just before. *)
Theorem sweep_stops_only_right_after_a_metric_fetch
    (cfg : Config) (w : World) (fuel : nat) (h : list call) :
  stops_follow_fetches false (fst (handle_check cfg w fuel h)) = true.
Proof.
  revert h. change (fetches_before_stops (handle_check cfg w fuel)).
  unfold handle_check. apply fetches_before_stops_bind.
  { apply fetches_before_stops_no_stop.
    unfold get_default_idle_minutes, int_. repeat emits_step; reflexivity. }
  intros d. unfold handle_check_from.
  apply fetches_before_stops_bind.
  { apply fetches_before_stops_no_stop.
    apply emits_list_tagged; [reflexivity|]. intros marker.
    now apply emits_invoke. }
  intros instances. apply fetches_before_stops_bind.
  { apply fetches_before_stops_foldM. intros acc x.
    apply fetches_before_stops_check_instance. }
  intros actions. apply fetches_before_stops_bind.
  { apply fetches_before_stops_no_stop.
    apply emits_list_tagged; [reflexivity|]. intros marker.
    now apply emits_invoke. }
  intros clusters. apply fetches_before_stops_bind.
  { apply fetches_before_stops_foldM. intros acc x.
    apply fetches_before_stops_check_cluster. }
  intros actions'. intros h. reflexivity.
Qed.

(** X12: a sweep never starts anything: [handle_check] makes no call to
    start an instance or a cluster. *)
Theorem sweep_never_starts_a_resource
    (cfg : Config) (w : World) (fuel : nat) (h : list call) :
  Forall (fun c => is_start c = false) (fst (handle_check cfg w fuel h)).
Proof.
  revert h. change (emits (fun c => is_start c = false) (handle_check cfg w fuel)).
  unfold handle_check. apply emits_bind.
  - unfold get_default_idle_minutes, int_. repeat emits_step; reflexivity.
  - intros d. apply emits_handle_check_from; reflexivity.
Qed.

(** ** The listings *)

Section Listing.

Context (cfg : Config) (w : World) (tags_of : string -> list Tag).
Context {A : Type} (arn_of : A -> string).
Context (mk_call : option string -> call)
        (oracle : list call -> option string -> reply (Page A)).

Hypothesis Hstable : stable_tags w tags_of.

Lemma keep_if_tagged_fold (items found : list A) h :
  foldM (keep_if_tagged cfg w arn_of) found items h
  = (map (fun x => ListTagsForResource (arn_of x)) items,
     Ok (found ++ List.filter
                    (fun x => has_required_tag cfg (tags_of (arn_of x))) items)).
Proof.
  revert found h. induction items as [|x items IH]; intros found h;
    cbn [foldM map List.filter].
  - now rewrite app_nil_r.
  - unfold bind at 1. unfold keep_if_tagged at 1.
    unfold bind, list_tags_for_resource, invoke, ret. rewrite Hstable.
    cbn [app]. rewrite IH.
    destruct (has_required_tag cfg (tags_of (arn_of x))); cbn [app];
      now rewrite <- ?app_assoc.
Qed.

Lemma marker_kwarg_set marker :
  marker_set marker = true -> marker_kwarg marker = marker.
Proof. unfold marker_kwarg. now intros ->. Qed.

Lemma list_tagged_pages (pages : list (Page A)) :
  forall fuel marker found h,
    serves oracle (marker_kwarg marker) pages ->
    (length pages <= fuel)%nat ->
    exists cs,
      list_tagged cfg w (fun mk => invoke (mk_call mk) (fun h' => oracle h' mk))
        arn_of fuel marker found h
      = (cs, Ok (found ++ List.filter
                            (fun x => has_required_tag cfg (tags_of (arn_of x)))
                            (concat (map Items pages)))).
Proof.
  induction pages as [|page rest IH]; intros fuel marker found h Hserves Hfuel;
    [destruct Hserves|].
  destruct fuel as [|fuel]; [cbn in Hfuel; lia|].
  destruct Hserves as [Hpage Hrest].
  cbn [list_tagged map concat]. unfold bind at 1. unfold invoke at 1.
  rewrite Hpage. unfold bind at 1. rewrite keep_if_tagged_fold.
  rewrite List.filter_app, app_assoc.
  destruct rest as [|page' rest].
  - rewrite Hrest. cbn [negb map concat List.filter]. rewrite !app_nil_r.
    eexists. reflexivity.
  - destruct Hrest as [Hset Hrest]. rewrite Hset. cbn [negb].
    rewrite <- (marker_kwarg_set _ Hset) in Hrest.
    edestruct (IH fuel (Marker page)) as (cs & ->);
      [exact Hrest | cbn in Hfuel |- *; lia |].
    eexists. reflexivity.
Qed.

End Listing.

(** X13: when the tag store answers every lookup, always the same for
    the same resource, and the provider hands out its instances and its
    clusters on finitely many pages chained by their markers, each
    listing returns exactly the resources whose tags carry the required
    tag, in the order of the pages. *)
Theorem listings_return_the_tagged_resources_of_every_page
    (cfg : Config) (w : World) (tags_of : string -> list Tag)
    (fuel : nat) (h : list call)
    (instance_pages : list (Page DBI.t)) (cluster_pages : list (Page DBC.t))
    (Hstable : stable_tags w tags_of)
    (Hinstances : serves (rds_describe_db_instances w) None instance_pages)
    (Hclusters : serves (rds_describe_db_clusters w) None cluster_pages)
    (Hfuel_i : (length instance_pages <= fuel)%nat)
    (Hfuel_c : (length cluster_pages <= fuel)%nat) :
  snd (list_tagged_db_instances cfg w fuel h)
  = Ok (List.filter
          (fun dbi => has_required_tag cfg (tags_of (DBI.DBInstanceArn dbi)))
          (concat (map Items instance_pages)))
  /\ snd (list_tagged_db_clusters cfg w fuel h)
     = Ok (List.filter
             (fun dbc => has_required_tag cfg (tags_of (DBC.DBClusterArn dbc)))
             (concat (map Items cluster_pages))).
Proof.
  split.
  - destruct (list_tagged_pages cfg w tags_of DBI.DBInstanceArn
                DescribeDBInstances (rds_describe_db_instances w) Hstable
                instance_pages fuel None [] h Hinstances Hfuel_i) as (cs & E).
    unfold list_tagged_db_instances. now rewrite E.
  - destruct (list_tagged_pages cfg w tags_of DBC.DBClusterArn
                DescribeDBClusters (rds_describe_db_clusters w) Hstable
                cluster_pages fuel None [] h Hclusters Hfuel_c) as (cs & E).
    unfold list_tagged_db_clusters. now rewrite E.
Qed.

(** X13 on the demo fleet: two pages of instances, of which [db5] is not
    tagged, and one page of clusters. *)
Lemma listings_witness :
  snd (list_tagged_db_instances default_config Demo.world 2 [])
  = Ok [Demo.db1; Demo.db2; Demo.db3; Demo.db4]
  /\ snd (list_tagged_db_clusters default_config Demo.world 2 [])
     = Ok [Demo.c1; Demo.c2; Demo.c3].
Proof.
  refine (listings_return_the_tagged_resources_of_every_page
            default_config Demo.world Demo.tags_of 2 []
            [Demo.pages_of_instances None; Demo.pages_of_instances (Some "page2")]
            [{| Items := [Demo.c1; Demo.c2; Demo.c3]; Marker := Some "" |}]
            _ _ _ _ _).
  - intros h arn. reflexivity.
  - repeat split; reflexivity.
  - repeat split; reflexivity.
  - apply le_n.
  - apply le_S, le_n.
Defined.

(** ** Failures that end the sweep *)

(** X14: nothing catches a failure of the instance listing: the sweep
    ends with that error after the parameter fetch and the refused
    listing call, and returns no lines. *)
Theorem instance_listing_failure_ends_the_sweep
    (cfg : Config) (w : World) (fuel : nat) (h : list call) (e : exn)
    (Hrefused :
       rds_describe_db_instances w
         (h ++ [SsmGetParameter (DEFAULT_IDLE_PARAM cfg)]) None = Raises e) :
  handle_check cfg w (S fuel) h
  = ([SsmGetParameter (DEFAULT_IDLE_PARAM cfg); DescribeDBInstances None],
     Raise e).
Proof.
  unfold handle_check.
  rewrite (bind_ok _ _ _ _ _ (get_default_idle_minutes_run cfg w h)).
  unfold handle_check_from, list_tagged_db_instances.
  cbn [list_tagged]. unfold bind, invoke.
  change (marker_kwarg None) with (@None string). now rewrite Hrefused.
Qed.

Lemma instance_listing_failure_witness :
  handle_check default_config (DemoMore.world_listing_refused true false) 3 []
  = ([SsmGetParameter "/rds/idle_shutdown_minutes"; DescribeDBInstances None],
     Raise (ClientError "AccessDenied")).
Proof.
  exact (instance_listing_failure_ends_the_sweep default_config
           (DemoMore.world_listing_refused true false) 2 []
           (ClientError "AccessDenied") eq_refl).
Defined.

(** X15: a failure of the cluster listing comes after the instance loop
    has run: the stops of that loop have been issued, yet the sweep ends
    with the error and the lines recorded for the instances are not
    returned. *)
Theorem cluster_listing_failure_loses_the_instance_lines
    (cfg : Config) (w : World) (fuel : nat) (h : list call)
    (default_idle : Z) (cs_i cs_e : list call)
    (instances : list DBI.t) (lines : list string) (e : exn)
    (Hdefault : snd (get_default_idle_minutes cfg w h) = Ok default_idle)
    (Hinstances :
       list_tagged_db_instances cfg w (S fuel)
         (h ++ [SsmGetParameter (DEFAULT_IDLE_PARAM cfg)])
       = (cs_i, Ok instances))
    (Hloop :
       foldM (check_instance cfg w default_idle (DEFAULT_LOOKBACK_MINUTES cfg))
             [] instances
             ((h ++ [SsmGetParameter (DEFAULT_IDLE_PARAM cfg)]) ++ cs_i)
       = (cs_e, Ok lines))
    (Hrefused :
       rds_describe_db_clusters w
         (((h ++ [SsmGetParameter (DEFAULT_IDLE_PARAM cfg)]) ++ cs_i) ++ cs_e)
         None = Raises e) :
  handle_check cfg w (S fuel) h
  = (SsmGetParameter (DEFAULT_IDLE_PARAM cfg)
       :: cs_i ++ cs_e ++ [DescribeDBClusters None],
     Raise e).
Proof.
  pose proof (get_default_idle_minutes_run cfg w h) as Hrun.
  rewrite Hrun in Hdefault. cbn [snd] in Hdefault. rewrite Hdefault in Hrun.
  unfold handle_check. rewrite (bind_ok _ _ _ _ _ Hrun).
  unfold handle_check_from.
  rewrite (bind_ok _ _ _ _ _ Hinstances), (bind_ok _ _ _ _ _ Hloop).
  unfold list_tagged_db_clusters. cbn [list_tagged]. unfold bind, invoke.
  change (marker_kwarg None) with (@None string). now rewrite Hrefused.
Qed.

Lemma cluster_listing_failure_witness :
  exists calls,
    handle_check default_config (DemoMore.world_listing_refused false true) 3 []
    = (calls, Raise (ClientError "AccessDenied"))
    /\ In (StopDBInstance "db1") calls.
Proof.
  eexists. split.
  - eapply (cluster_listing_failure_loses_the_instance_lines default_config
              (DemoMore.world_listing_refused false true) 2 [] 30).
    + reflexivity.
    + vm_compute. reflexivity.
    + vm_compute. reflexivity.
    + reflexivity.
  - vm_compute. tauto.
Defined.

Lemma keep_if_tagged_fold_returns (cfg : Config) (w : World) {A}
    (arn_of : A -> string) (items found : list A) h :
  Forall (fun y => forall h', exists tags,
            rds_list_tags_for_resource w h' (arn_of y) = Returns tags) items ->
  exists found',
    foldM (keep_if_tagged cfg w arn_of) found items h
    = (map (fun y => ListTagsForResource (arn_of y)) items, Ok found').
Proof.
  intros H. revert found h.
  induction H as [|y items Hy _ IH]; intros found h; cbn [foldM map].
  - eexists. reflexivity.
  - destruct (Hy h) as (tags & Ey).
    unfold bind at 1. unfold keep_if_tagged at 1.
    unfold bind, list_tags_for_resource, invoke, ret. rewrite Ey. cbn [app].
    edestruct IH as (found' & ->). eexists. reflexivity.
Qed.

(** X16: while listing, a tag lookup that fails is not caught: the sweep
    ends with that error at the first listed instance whose lookup
    fails, before any resource is evaluated.  The same failure during
    evaluation is absorbed by [get_effective_idle_minutes], which falls
    back to the default. *)
Theorem tag_lookup_failure_while_listing_ends_the_sweep
    (cfg : Config) (w : World) (fuel : nat) (h : list call)
    (page : Page DBI.t) (before after : list DBI.t) (dbi : DBI.t) (e : exn)
    (Hpage :
       rds_describe_db_instances w
         (h ++ [SsmGetParameter (DEFAULT_IDLE_PARAM cfg)]) None = Returns page)
    (Hitems : Items page = before ++ dbi :: after)
    (Hbefore :
       Forall (fun y => forall h', exists tags,
                 rds_list_tags_for_resource w h' (DBI.DBInstanceArn y)
                 = Returns tags) before)
    (Hfails :
       forall h', rds_list_tags_for_resource w h' (DBI.DBInstanceArn dbi)
                  = Raises e) :
  handle_check cfg w (S fuel) h
  = (SsmGetParameter (DEFAULT_IDLE_PARAM cfg)
       :: DescribeDBInstances None
       :: map (fun y => ListTagsForResource (DBI.DBInstanceArn y))
              (before ++ [dbi]),
     Raise e)
  /\ (forall default_idle h',
        get_effective_idle_minutes w (DBI.DBInstanceArn dbi) default_idle h'
        = ([ListTagsForResource (DBI.DBInstanceArn dbi)], Ok default_idle)).
Proof.
  split.
  - set (h0 := h ++ [SsmGetParameter (DEFAULT_IDLE_PARAM cfg)]) in *.
    assert (Hfold :
      foldM (keep_if_tagged cfg w DBI.DBInstanceArn) [] (Items page)
            (h0 ++ [DescribeDBInstances None])
      = (map (fun y => ListTagsForResource (DBI.DBInstanceArn y))
             (before ++ [dbi]), Raise e)).
    { rewrite Hitems, foldM_app.
      edestruct (keep_if_tagged_fold_returns cfg w DBI.DBInstanceArn before [])
        as (found' & E); [exact Hbefore|].
      assert (Hkeep : forall found h',
        keep_if_tagged cfg w DBI.DBInstanceArn found dbi h'
        = ([ListTagsForResource (DBI.DBInstanceArn dbi)], Raise e)).
      { intros found h'.
        unfold keep_if_tagged, bind, list_tags_for_resource, invoke.
        now rewrite Hfails. }
      rewrite (bind_ok _ _ _ _ _ E). cbn [foldM].
      rewrite (bind_raise _ _ _ _ _ (Hkeep _ _)). cbn [fst snd].
      now rewrite map_app. }
    assert (Hlist :
      list_tagged_db_instances cfg w (S fuel) h0
      = (DescribeDBInstances None
           :: map (fun y => ListTagsForResource (DBI.DBInstanceArn y))
                  (before ++ [dbi]), Raise e)).
    { unfold list_tagged_db_instances. cbn [list_tagged].
      change (marker_kwarg None) with (@None string).
      assert (Hinvoke :
        invoke (DescribeDBInstances None)
               (fun h' => rds_describe_db_instances w h' None) h0
        = ([DescribeDBInstances None], Ok page))
        by (unfold invoke; now rewrite Hpage).
      rewrite (bind_ok _ _ _ _ _ Hinvoke).
      now rewrite (bind_raise _ _ _ _ _ Hfold). }
    unfold handle_check.
    rewrite (bind_ok _ _ _ _ _ (get_default_idle_minutes_run cfg w h)).
    unfold handle_check_from. fold h0.
    now rewrite (bind_raise _ _ _ _ _ Hlist).
  - intros default_idle h'. rewrite get_effective_idle_minutes_run.
    now rewrite Hfails.
Qed.

Lemma tag_lookup_failure_witness :
  handle_check default_config DemoMore.world_tags_fail 3 []
  = ([SsmGetParameter "/rds/idle_shutdown_minutes"; DescribeDBInstances None;
      ListTagsForResource "arn:db1"; ListTagsForResource "arn:db2"],
     Raise (ClientError "Rate exceeded")).
Proof.
  refine (proj1 (tag_lookup_failure_while_listing_ends_the_sweep
                   default_config DemoMore.world_tags_fail 2 []
                   (Demo.pages_of_instances None) [Demo.db1] [Demo.db3]
                   Demo.db2 (ClientError "Rate exceeded")
                   eq_refl eq_refl _ _)).
  - repeat constructor. intros h'. eexists. reflexivity.
  - intros h'. reflexivity.
Defined.

(** ** The entry point *)

Section Dispatch.

Context (cfg : Config) (w : World).

(** X17: [lambda_handler] runs the start request exactly when the mode is
    ["start"], given in the event or, for an event without mode that
    does not come from the scheduler, inferred from a request context.
    Every other event runs the sweep: a scheduled event even if it has a
    request context, an event that is no dictionary, and any mode other
    than ["start"], known or not. *)
Theorem handler_starts_only_in_start_mode (fuel : nat) (event : LambdaEvent) :
  (resolved_mode event = Some "start" <->
     exists mode source requestContext http,
       event = Dict mode source requestContext http
       /\ (mode = Some "start"
           \/ (mode_missing mode = true /\ source <> Some "aws.events"
               /\ requestContext = true)))
  /\ (forall mode source requestContext http h,
        event = Dict mode source requestContext http ->
        resolved_mode event = Some "start" ->
        lambda_handler cfg w fuel event h
        = bind (handle_start w http) (fun r => ret (StartResult r)) h)
  /\ (forall h,
        resolved_mode event <> Some "start" ->
        lambda_handler cfg w fuel event h
        = bind (handle_check cfg w fuel) (fun r => ret (CheckResult r)) h)
  /\ (forall mode requestContext http,
        event = Dict mode (Some "aws.events") requestContext http ->
        mode_missing mode = true ->
        resolved_mode event = Some "check").
Proof.
  split; [|split; [|split]].
  - destruct event as [|mode source requestContext http]; cbn [resolved_mode].
    + split; [discriminate|]. now intros (? & ? & ? & ? & ? & _).
    + split.
      * intros E. exists mode, source, requestContext, http.
        split; [reflexivity|].
        destruct mode as [[|c s]|]; cbn in E |- *.
        -- destruct source as [s'|]; [destruct (String.eqb s' "aws.events") eqn:Es|];
             cbn in E; try discriminate E;
             destruct requestContext; try discriminate E;
             right; repeat split; try congruence.
           intros [= ->]. discriminate Es.
        -- now left.
        -- destruct source as [s'|]; [destruct (String.eqb s' "aws.events") eqn:Es|];
             cbn in E; try discriminate E;
             destruct requestContext; try discriminate E;
             right; repeat split; try congruence.
           intros [= ->]. discriminate Es.
      * intros (mode' & source' & rc' & http' & [= -> -> -> ->] & [-> | (Hm & Hs & ->)]).
        -- reflexivity.
        -- rewrite Hm. cbn [andb].
           destruct source' as [s'|].
           ++ destruct (String.eqb s' "aws.events") eqn:Es.
              ** apply String.eqb_eq in Es. congruence.
              ** now rewrite Hm.
           ++ now rewrite Hm.
  - intros mode source requestContext http h -> E.
    unfold lambda_handler. now rewrite E.
  - intros h Hne. unfold lambda_handler.
    destruct (resolved_mode event) as [s|]; [|reflexivity].
    destruct (String.eqb s "check") eqn:Ec; [reflexivity|].
    destruct (String.eqb s "start") eqn:Es; [|reflexivity].
    apply String.eqb_eq in Es. congruence.
  - intros mode requestContext http -> Hm. cbn [resolved_mode].
    now rewrite Hm.
Qed.

End Dispatch.

(** ** The reference of a start request *)

Lemma handle_start_calls (w : World) (event : Event) (r : string) h :
  requested_resource event = r -> r <> "" ->
  fst (handle_start w event h)
  = match strip_prefix "cluster:" r with
    | Some cluster_id => [StartDBCluster cluster_id]
    | None => [StartDBInstance r]
    end.
Proof.
  intros <- Hne. unfold handle_start.
  destruct (requested_resource event) as [|c s] eqn:E; [congruence|].
  cbn [truthy negb]. unfold startswith.
  destruct (strip_prefix "cluster:" (String c s)) as [rest|] eqn:Ep.
  - apply strip_prefix_Some in Ep. rewrite Ep, split_once_prefix.
    unfold bind. rewrite start_cluster_run.
    now destruct (rds_start_db_cluster w h rest) as [[]|[message|name]].
  - unfold bind. rewrite start_instance_run.
    now destruct (rds_start_db_instance w h _) as [[]|[message|name]].
Qed.

(** X18: the reference of a start request is the query parameter
    ["resource"]; when that one is missing or empty the parameter ["db"]
    is used in its place, with the same routing by prefix, and a
    non-empty ["resource"] hides whatever ["db"] says. *)
Theorem start_reference_falls_back_to_db
    (w : World) (event : Event) (params : gmap string string) (h : list call)
    (Hparams : queryStringParameters event = Some params) :
  (forall r, params !! "resource" = Some r -> r <> "" ->
             requested_resource event = r)
  /\ (forall d,
        params !! "resource" = None \/ params !! "resource" = Some "" ->
        params !! "db" = Some d ->
        requested_resource event = d)
  /\ (forall d,
        params !! "resource" = None \/ params !! "resource" = Some "" ->
        params !! "db" = Some d -> d <> "" ->
        fst (handle_start w event h)
        = match strip_prefix "cluster:" d with
          | Some cluster_id => [StartDBCluster cluster_id]
          | None => [StartDBInstance d]
          end).
Proof.
  assert (Hdb : forall d,
        params !! "resource" = None \/ params !! "resource" = Some "" ->
        params !! "db" = Some d ->
        requested_resource event = d).
  { intros d Hr Hd. unfold requested_resource. rewrite Hparams.
    change (default ∅ (Some params)) with params. rewrite Hd.
    destruct Hr as [-> | ->]; cbn [get_or truthy]; now destruct d. }
  split; [|split; [exact Hdb|]].
  - intros r Hr Hne. unfold requested_resource. rewrite Hparams.
    change (default ∅ (Some params)) with params. rewrite Hr.
    destruct r; [congruence | reflexivity].
  - intros d Hr Hd Hne. apply handle_start_calls; auto.
Qed.

Lemma start_reference_witness :
  fst (handle_start Demo.world
         {| queryStringParameters := Some {[ "db" := "cluster:c1" ]} |} [])
  = [StartDBCluster "c1"].
Proof.
  exact (proj2 (proj2 (start_reference_falls_back_to_db Demo.world
                  {| queryStringParameters := Some {[ "db" := "cluster:c1" ]} |}
                  {[ "db" := "cluster:c1" ]} [] eq_refl))
               "cluster:c1" (or_introl eq_refl) eq_refl ltac:(discriminate)).
Defined.
